(** * A shallow embedding of the finance calculator

    The development follows the TypeScript sources:
    - [components/Calculator.tsx]: the arithmetic engine (keypad handlers),
      the scan sanitizer [validateAndSanitizeScanResult], [processImage] and
      the staging handlers;
    - the history view (the [History] component): the category management
      handlers, clearing and exporting the history;
    - [App.tsx]: the persisted slots (history ledger, category set).

    JavaScript values are modelled as the code sees them: numbers are IEEE-754
    binary64 values (the executable [spec_float] of the Standard Library, with
    precision 53 and maximal exponent 1024), strings are sequences of code
    units (restricted to the code units below 256, which covers every literal
    of the sources, among them the operator signs), the untyped AI payload is
    a tree of JSON values.  React state is a record, a handler is a function
    from the state it closes over to the state after its setters ran. *)

From Stdlib Require Import ZArith Bool List String Ascii Lia Permutation.
From Stdlib Require Import SpecFloat DecimalString.
Import ListNotations.

Set Warnings "-register-all".

Local Open Scope string_scope.
Local Open Scope Z_scope.

(* ================================================================= *)
(** ** Strings as sequences of code units *)

Module JsString.

Definition code (c : ascii) : N := N_of_ascii c.

Definition isDigit (c : ascii) : bool :=
  ((48 <=? code c) && (code c <=? 57))%N.

(** [WhiteSpace] and [LineTerminator] code units below 256: TAB, LF, VT, FF,
    CR, SP and NBSP. *)
Definition isWhiteSpace (c : ascii) : bool :=
  ((9 <=? code c) && (code c <=? 13) || (code c =? 32) || (code c =? 160))%N.

Fixpoint trimStart (s : string) : string :=
  match s with
  | String c rest => if isWhiteSpace c then trimStart rest else s
  | EmptyString => EmptyString
  end.

Fixpoint rev_string (s acc : string) : string :=
  match s with
  | EmptyString => acc
  | String c rest => rev_string rest (String c acc)
  end.

Definition trimEnd (s : string) : string :=
  rev_string (trimStart (rev_string s EmptyString)) EmptyString.

(** [String.prototype.trim] *)
Definition trim (s : string) : string := trimEnd (trimStart s).

Definition lowerChar (c : ascii) : ascii :=
  let n := code c in
  if ((65 <=? n) && (n <=? 90)
      || (192 <=? n) && (n <=? 222) && negb (n =? 215))%N
  then ascii_of_N (n + 32) else c.

(** [String.prototype.toLowerCase] *)
Fixpoint toLowerCase (s : string) : string :=
  match s with
  | EmptyString => EmptyString
  | String c rest => String (lowerChar c) (toLowerCase rest)
  end.

(** [s.includes(c)] for a one-character needle *)
Fixpoint includesChar (c : ascii) (s : string) : bool :=
  match s with
  | EmptyString => false
  | String d rest => Ascii.eqb c d || includesChar c rest
  end.

(** [s.slice(0, -1)] *)
Fixpoint dropLast (s : string) : string :=
  match s with
  | EmptyString => EmptyString
  | String c EmptyString => EmptyString
  | String c rest => String c (dropLast rest)
  end.

Fixpoint filterChars (keep : ascii -> bool) (s : string) : string :=
  match s with
  | EmptyString => EmptyString
  | String c rest =>
      if keep c then String c (filterChars keep rest) else filterChars keep rest
  end.

(** [xs.join(sep)] on strings *)
Fixpoint join (sep : string) (xs : list string) : string :=
  match xs with
  | [] => ""
  | [x] => x
  | x :: rest => x ++ sep ++ join sep rest
  end.

(** The comparison of the default [Array.prototype.sort]: [a] sorts before
    [b] when it is smaller in the lexicographic order of the code units. *)
Fixpoint ltb (a b : string) : bool :=
  match a, b with
  | _, EmptyString => false
  | EmptyString, String _ _ => true
  | String c a', String d b' =>
      if (code c <? code d)%N then true
      else if (code d <? code c)%N then false
      else ltb a' b'
  end.

Definition leb (a b : string) : bool := negb (ltb b a).

Fixpoint repeatChar (c : ascii) (n : nat) : string :=
  match n with
  | O => EmptyString
  | S n' => String c (repeatChar c n')
  end.

Fixpoint take (n : nat) (s : string) : string :=
  match n, s with
  | S n', String c rest => String c (take n' rest)
  | _, _ => EmptyString
  end.

Fixpoint drop (n : nat) (s : string) : string :=
  match n, s with
  | S n', String c rest => drop n' rest
  | _, _ => s
  end.

End JsString.

(* ================================================================= *)
(** ** Numbers: IEEE-754 binary64 *)

Module JsNumber.

Definition prec : Z := 53.
Definition emax : Z := 1024.

Definition number : Type := spec_float.

Definition NaN : number := S754_nan.
Definition Infinity : number := S754_infinity false.
Definition zero : number := S754_zero false.

Definition add : number -> number -> number := SFadd prec emax.
Definition sub : number -> number -> number := SFsub prec emax.
Definition mul : number -> number -> number := SFmul prec emax.
Definition div : number -> number -> number := SFdiv prec emax.
Definition neg : number -> number := SFopp.

Definition isNaN (x : number) : bool :=
  match x with S754_nan => true | _ => false end.

(** the global [isFinite] on a number *)
Definition isFinite (x : number) : bool :=
  match x with
  | S754_zero _ | S754_finite _ _ _ => true
  | S754_infinity _ | S754_nan => false
  end.

Definition isZero (x : number) : bool :=
  match x with S754_zero _ => true | _ => false end.

(** [x <= y] on numbers ([false] as soon as one side is NaN) *)
Definition leb (x y : number) : bool := SFleb x y.

(** [x === y] on numbers: NaN differs from itself, the two zeros are equal *)
Definition strictEq (x y : number) : bool := SFeqb x y.

(** The Number value of a non-negative integer. *)
Definition ofZ (z : Z) : number := binary_normalize prec emax z 0 false.

(** The Number value of the positive rational [num / den]: the nearest
    binary64 value, ties to even. *)
Definition nearest (num den : positive) : number :=
  SFdiv prec emax (S754_finite false num 0) (S754_finite false den 0).

(** The Number value of [m * 10 ^ e] for a natural [m]. *)
Definition ofDecimal (m : Z) (e : Z) : number :=
  match m with
  | Zpos p =>
      let nd := Z.of_nat (String.length (NilZero.string_of_uint (Pos.to_uint p))) in
      if 310 <? nd + e then Infinity
      else if nd + e <? -330 then zero
      else if 0 <=? e then nearest (p * Z.to_pos (10 ^ e)) 1
      else nearest p (Z.to_pos (10 ^ (- e)))
  | _ => zero
  end.

(** *** [parseFloat] *)

Fixpoint spanDigits (s : string) : string * string :=
  match s with
  | String c rest =>
      if JsString.isDigit c
      then let '(ds, tl) := spanDigits rest in (String c ds, tl)
      else (EmptyString, s)
  | EmptyString => (EmptyString, EmptyString)
  end.

Fixpoint digitsValue (s : string) (acc : Z) : Z :=
  match s with
  | String c rest => digitsValue rest (10 * acc + (Z.of_N (JsString.code c) - 48))
  | EmptyString => acc
  end.

(** A leading sign, if any. *)
Definition splitSign (s : string) : bool * string :=
  match s with
  | String "-" rest => (true, rest)
  | String "+" rest => (false, rest)
  | _ => (false, s)
  end.

(** An [ExponentPart] at the head of [s], when there is a complete one. *)
Definition exponentPart (s : string) : Z :=
  match s with
  | String c rest =>
      if Ascii.eqb c "e" || Ascii.eqb c "E" then
        let '(sg, rest') := splitSign rest in
        let '(ds, _) := spanDigits rest' in
        match ds with
        | EmptyString => 0
        | _ => if sg then - digitsValue ds 0 else digitsValue ds 0
        end
      else 0
  | EmptyString => 0
  end.

Definition signed (sg : bool) (x : number) : number :=
  if sg then neg x else x.

(** [parseFloat(s)]: the longest prefix of the left-trimmed string that is
    a [StrDecimalLiteral], or NaN when there is none. *)
Definition parseFloat (s : string) : number :=
  let '(sg, body) := splitSign (JsString.trimStart s) in
  if String.prefix "Infinity" body then signed sg Infinity
  else
    let '(ip, r1) := spanDigits body in
    let '(fp, r2) :=
      match r1 with
      | String "." r => spanDigits r
      | _ => (EmptyString, r1)
      end in
    match ip, fp with
    | EmptyString, EmptyString => NaN
    | _, _ =>
        let e := exponentPart r2 in
        signed sg (ofDecimal (digitsValue (ip ++ fp) 0)
                             (e - Z.of_nat (String.length fp)))
    end.

(** *** [Number::toString] (radix 10) *)

Definition digitsOf (z : Z) : string :=
  NilZero.string_of_uint (N.to_uint (Z.to_N z)).

(** [P / Q] compared with [10 ^ n]: is [10 ^ n <= P / Q]? *)
Definition pow10_le (n : Z) (P Q : Z) : bool :=
  if 0 <=? n then 10 ^ n * Q <=? P else Q <=? P * 10 ^ (- n).

Fixpoint searchExponent (fuel : nat) (n : Z) (P Q : Z) : Z :=
  match fuel with
  | O => n
  | S fuel' => if pow10_le n P Q then searchExponent fuel' (n + 1) P Q else n
  end.

(** The [n] with [10 ^ (n - 1) <= P / Q < 10 ^ n]. *)
Definition decimalExponent (P Q : Z) : Z :=
  let start := ((Z.log2 P - Z.log2 Q - 1) * 30103) / 100000 - 1 in
  searchExponent 8 start P Q.

(** Does the decimal [c * 10 ^ q] denote the number [v]? *)
Definition denotes (c q : Z) (v : number) : bool :=
  match SFcompare (ofDecimal c q) v with
  | Some Eq => true
  | _ => false
  end.

(** The shortest digit string [s] (with [k] digits) and exponent [n] such
    that [s * 10 ^ (n - k)] denotes [v = P / Q]; the closest to [v] among
    the strings of that length, the even one on a tie. *)
Fixpoint shortest (fuel : nat) (k : Z) (n : Z) (P Q : Z) (v : number) : Z * Z :=
  let sc := k - n in
  let A := if 0 <=? sc then P * 10 ^ sc else P in
  let B := if 0 <=? sc then Q else Q * 10 ^ (- sc) in
  let lo := A / B in
  let r := A mod B in
  let hi := lo + 1 in
  let lo_ok := denotes lo (n - k) v in
  let hi_ok := denotes hi (n - k) v in
  let prefer_lo := (2 * r <? B) || ((2 * r =? B) && Z.even lo) in
  let pick_hi := if hi =? 10 ^ k then (10 ^ (k - 1), n + 1) else (hi, n) in
  match fuel with
  | O => (lo, n)
  | S fuel' =>
      if lo_ok && hi_ok then (if prefer_lo then (lo, n) else pick_hi)
      else if lo_ok then (lo, n)
      else if hi_ok then pick_hi
      else shortest fuel' (k + 1) n P Q v
  end.

Fixpoint stripZeros (fuel : nat) (s : Z) : Z :=
  match fuel with
  | O => s
  | S fuel' => if (s mod 10 =? 0) && (0 <? s) then stripZeros fuel' (s / 10) else s
  end.

(** The rational [P / Q] of a finite positive number [m * 2 ^ e]. *)
Definition ratio (m : positive) (e : Z) : Z * Z :=
  if 0 <=? e then (Zpos m * 2 ^ e, 1) else (Zpos m, 2 ^ (- e)).

Definition formatDecimal (s : Z) (n : Z) : string :=
  let ds := digitsOf s in
  let k := Z.of_nat (String.length ds) in
  if (k <=? n) && (n <=? 21) then
    ds ++ JsString.repeatChar "0" (Z.to_nat (n - k))
  else if (0 <? n) && (n <=? 21) then
    JsString.take (Z.to_nat n) ds ++ "." ++ JsString.drop (Z.to_nat n) ds
  else if (-6 <? n) && (n <=? 0) then
    "0." ++ JsString.repeatChar "0" (Z.to_nat (- n)) ++ ds
  else
    let e := n - 1 in
    let es := (if 0 <=? e then "+" else "-") ++ digitsOf (Z.abs e) in
    if k =? 1 then ds ++ "e" ++ es
    else JsString.take 1 ds ++ "." ++ JsString.drop 1 ds ++ "e" ++ es.

Definition positiveToString (m : positive) (e : Z) : string :=
  let '(P, Q) := ratio m e in
  let n := decimalExponent P Q in
  let '(s, n') := shortest 17 1 n P Q (S754_finite false m e) in
  formatDecimal (stripZeros 17 s) n'.

(** [String(x)] for a number [x] *)
Definition toString (x : number) : string :=
  match x with
  | S754_nan => "NaN"
  | S754_zero _ => "0"
  | S754_infinity false => "Infinity"
  | S754_infinity true => "-Infinity"
  | S754_finite sg m e =>
      (if sg then "-" else "") ++ positiveToString m e
  end.

(** *** [Number.prototype.toFixed] with two fraction digits *)

Definition fixedDigits (m : positive) (e : Z) : string :=
  let '(P, Q) := ratio m e in
  if 10 ^ 21 * Q <=? P then positiveToString m e
  else
    (* the integer n closest to 100 * P / Q, the larger one on a tie *)
    let n := (200 * P + Q) / (2 * Q) in
    let ds := digitsOf n in
    let k := String.length ds in
    let padded := JsString.repeatChar "0" (3 - k) ++ ds in
    let k' := String.length padded in
    JsString.take (k' - 2) padded ++ "." ++ JsString.drop (k' - 2) padded.

(** [x.toFixed(2)] *)
Definition toFixed2 (x : number) : string :=
  match x with
  | S754_nan => "NaN"
  | S754_infinity false => "Infinity"
  | S754_infinity true => "-Infinity"
  | S754_zero _ => "0.00"
  | S754_finite sg m e => (if sg then "-" else "") ++ fixedDigits m e
  end.

(** [parseFloat(x.toFixed(2))], the rounding used at the scan boundary *)
Definition round2 (x : number) : number := parseFloat (toFixed2 x).

(** [Math.PI] and [Math.E] *)
Definition Math_PI : number := S754_finite false 7074237752028440 (-51).
Definition Math_E : number := S754_finite false 6121026514868073 (-51).

End JsNumber.

(* ================================================================= *)
(** ** Untyped values: the payload returned by [JSON.parse] *)

Module JsValue.
Import JsNumber.

(** A JSON value, plus [undefined] for what a property read may give.  An
    object is the list of its own properties, the first binding of a key
    being the live one. *)
Inductive JsValue : Type :=
| JUndefined
| JNull
| JBool (b : bool)
| JNum (n : number)
| JStr (s : string)
| JArr (elems : list JsValue)
| JObj (props : list (string * JsValue)).

Inductive JsType : Type :=
| TUndefined | TObject | TBoolean | TNumber | TString.

(** [typeof v] *)
Definition typeof (v : JsValue) : JsType :=
  match v with
  | JUndefined => TUndefined
  | JNull | JArr _ | JObj _ => TObject
  | JBool _ => TBoolean
  | JNum _ => TNumber
  | JStr _ => TString
  end.

Definition isObjectType (v : JsValue) : bool :=
  match typeof v with TObject => true | _ => false end.

(** [ToBoolean]: what [!v] and [v || w] test *)
Definition truthy (v : JsValue) : bool :=
  match v with
  | JUndefined | JNull => false
  | JBool b => b
  | JNum n => negb (isZero n || isNaN n)
  | JStr s => negb (String.eqb s "")
  | JArr _ | JObj _ => true
  end.

(** [v || w] *)
Definition or_else (v w : JsValue) : JsValue := if truthy v then v else w.

Fixpoint lookup (k : string) (props : list (string * JsValue)) : option JsValue :=
  match props with
  | [] => None
  | (k', v) :: rest => if String.eqb k k' then Some v else lookup k rest
  end.

(** [v.k] for the property names the sanitizer reads ([items], [amount],
    [description], [category]): none of them is inherited from
    [Object.prototype] or [Array.prototype], so the read gives the own
    property of an object and [undefined] otherwise. *)
Definition getProp (v : JsValue) (k : string) : JsValue :=
  match v with
  | JObj props => match lookup k props with Some x => x | None => JUndefined end
  | _ => JUndefined
  end.

Definition isArray (v : JsValue) : bool :=
  match v with JArr _ => true | _ => false end.

Definition elements (v : JsValue) : list JsValue :=
  match v with JArr l => l | _ => [] end.

Fixpoint joinOpt (xs : list (option string)) : option string :=
  match xs with
  | [] => Some ""
  | [x] => x
  | x :: rest =>
      match x, joinOpt rest with
      | Some a, Some b => Some (a ++ "," ++ b)
      | _, _ => None
      end
  end.

(** [String(v)]: [None] when the conversion throws a [TypeError].  A parsed
    object converts through [Object.prototype.toString] unless it has an
    own property [toString]: that one is never callable, [valueOf] then
    gives back the object and the conversion throws.  An array converts
    through [join], its [null] elements giving the empty string. *)
Fixpoint toStr (v : JsValue) : option string :=
  match v with
  | JUndefined => Some "undefined"
  | JNull => Some "null"
  | JBool true => Some "true"
  | JBool false => Some "false"
  | JNum n => Some (toString n)
  | JStr s => Some s
  | JArr elems =>
      joinOpt (map (fun e => match e with
                             | JUndefined | JNull => Some ""
                             | _ => toStr e
                             end) elems)
  | JObj props =>
      match lookup "toString" props with
      | Some _ => None
      | None => Some "[object Object]"
      end
  end.

End JsValue.

(* ================================================================= *)
(** ** Exceptions and results *)

Inductive Exn : Type :=
| Error (message : string)
| TypeError (message : string).

Definition exnMessage (e : Exn) : string :=
  match e with Error m | TypeError m => m end.

Inductive result (A : Type) : Type :=
| Ok (a : A)
| Throw (e : Exn).
Arguments Ok {A} a.
Arguments Throw {A} e.

Definition bind {A B : Type} (r : result A) (k : A -> result B) : result B :=
  match r with
  | Ok a => k a
  | Throw e => Throw e
  end.

Notation "'let*' x ':=' r 'in' k" := (bind r (fun x => k))
  (at level 10, x name, r at level 100, k at level 200).

(* ================================================================= *)
(** ** types.ts *)

Record Item : Type := mkItem {
  description : string;
  amount : JsNumber.number
}.

Record CalculationResult : Type := mkCalculationResult {
  total : JsNumber.number;
  category : string;
  items : list Item
}.

Inductive HistoryType : Type := scan | manual | expense.

(** [Omit<HistoryItem, 'id' | 'date'>], what a component hands to
    [addHistoryItem] *)
Record HistoryDraft : Type := mkDraft {
  d_type : HistoryType;
  d_total : JsNumber.number;
  d_calculation : option string;
  d_description : option string;
  d_category : option string;
  d_imageDataUrl : option string
}.

Record HistoryItem : Type := mkHistoryItem {
  h_id : string;
  h_date : string;
  h_entry : HistoryDraft
}.

(* ================================================================= *)
(** ** The scan sanitizer (Calculator.tsx, lines 28-109) *)

Module Sanitizer.
Import JsNumber JsValue.

Definition conversionError : Exn :=
  TypeError "Cannot convert object to primitive value".

(** [String(v)] as a statement that may throw *)
Definition String_ (v : JsValue) : result string :=
  match toStr v with
  | Some s => Ok s
  | None => Throw conversionError
  end.

(** the class [0-9.-] of the regular expression [/[^0-9.-]+/g] *)
Definition numericChar (c : ascii) : bool :=
  JsString.isDigit c || Ascii.eqb c "." || Ascii.eqb c "-".

(** [value.replace(/[^0-9.-]+/g, "")] *)
Definition cleanAmount (value : string) : string :=
  JsString.filterChars numericChar value.

(** lines 28-39, on the string amounts of the editable items *)
Definition parseSanitizedAmount (value : string) : number :=
  let cleanedString := cleanAmount value in
  let parsed := parseFloat cleanedString in
  if isNaN parsed || negb (isFinite parsed) then zero else parsed.

(** The loop of lines 67-99: [sanitizedItems] is the array being pushed to,
    a skipped element is a [continue]. *)
Fixpoint sanitizeLoop (items : list JsValue) (sanitizedItems : list Item)
  : result (list Item) :=
  match items with
  | [] => Ok sanitizedItems
  | item :: rest =>
      if negb (truthy item) || negb (isObjectType item)
      then sanitizeLoop rest sanitizedItems
      else
        let rawAmount := getProp item "amount" in
        let resolved :=
          match rawAmount with
          | JNum n => if isFinite n then Some n else None
          | JStr s =>
              let cleanedString := cleanAmount s in
              let parsed := parseFloat cleanedString in
              if negb (isNaN parsed) && isFinite parsed then Some parsed else None
          | _ => None
          end in
        match resolved with
        | None => sanitizeLoop rest sanitizedItems
        | Some amount =>
            let* d := String_ (or_else (getProp item "description")
                                       (JStr "Unnamed Item")) in
            sanitizeLoop rest
              (sanitizedItems ++
               [mkItem (JsString.trim d) (parseFloat (toFixed2 amount))])
        end
  end.

Definition formatError : Exn :=
  Error "Invalid response format from AI. Expected an object.".

(** lines 58-109 *)
Definition validateAndSanitizeScanResult (rawResult : JsValue)
  : result CalculationResult :=
  if negb (truthy rawResult) || negb (isObjectType rawResult)
  then Throw formatError
  else
    let items :=
      if isArray (getProp rawResult "items")
      then elements (getProp rawResult "items") else [] in
    let* sanitizedItems := sanitizeLoop items [] in
    let total :=
      fold_left (fun sum item => add sum (amount item)) sanitizedItems zero in
    let* c := String_ (or_else (getProp rawResult "category")
                               (JStr "Uncategorized")) in
    Ok (mkCalculationResult (parseFloat (toFixed2 total))
                            (JsString.trim c)
                            sanitizedItems).

(** A [CalculationResult] read back as an untyped object, with the keys of
    the object literal of lines 104-108. *)
Definition toRaw (r : CalculationResult) : JsValue :=
  JObj [("items",
         JArr (map (fun it => JObj [("description", JStr (description it));
                                    ("amount", JNum (amount it))])
                   (items r)));
        ("total", JNum (total r));
        ("category", JStr (category r))].

End Sanitizer.

(* ================================================================= *)
(** ** The arithmetic engine (Calculator.tsx, lines 113-306) *)

(** The functions of [Math] that ECMA-262 leaves implementation-approximated:
    the engine is parametrised by the host's. *)
Class MathLib : Type := {
  Math_pow : JsNumber.number -> JsNumber.number -> JsNumber.number;
  Math_sqrt : JsNumber.number -> JsNumber.number;
  Math_sin : JsNumber.number -> JsNumber.number;
  Math_cos : JsNumber.number -> JsNumber.number;
  Math_tan : JsNumber.number -> JsNumber.number;
  Math_log10 : JsNumber.number -> JsNumber.number;
  Math_log : JsNumber.number -> JsNumber.number
}.

Module Engine.
Import JsNumber.

(** the five [useState] cells of lines 113-117 *)
Record CalcState : Type := mkCalc {
  displayValue : string;
  previousValue : option number;
  operator : option string;
  waitingForOperand : bool;
  calculationString : string
}.

Definition setDisplayValue (v : string) (s : CalcState) : CalcState :=
  mkCalc v (previousValue s) (operator s) (waitingForOperand s) (calculationString s).
Definition setPreviousValue (v : option number) (s : CalcState) : CalcState :=
  mkCalc (displayValue s) v (operator s) (waitingForOperand s) (calculationString s).
Definition setOperator (v : option string) (s : CalcState) : CalcState :=
  mkCalc (displayValue s) (previousValue s) v (waitingForOperand s) (calculationString s).
Definition setWaitingForOperand (v : bool) (s : CalcState) : CalcState :=
  mkCalc (displayValue s) (previousValue s) (operator s) v (calculationString s).
Definition setCalculationString (v : string) (s : CalcState) : CalcState :=
  mkCalc (displayValue s) (previousValue s) (operator s) (waitingForOperand s) v.

(** the state of the first render *)
Definition initial : CalcState := mkCalc "0" None None true "".

Definition isError (s : CalcState) : bool := String.eqb (displayValue s) "Error".

(** the operator signs; the multiplication and division signs are the code
    units 215 and 247 *)
Definition op_add : string := "+".
Definition op_sub : string := "-".
Definition op_mul : string := String (ascii_of_nat 215) "".
Definition op_div : string := String (ascii_of_nat 247) "".
Definition op_pow : string := "x^y".

Definition two : number := ofZ 2.
Definition hundred : number := ofZ 100.
Definition oneEighty : number := ofZ 180.
Definition minusOne : number := neg (ofZ 1).

(** [operator && ...]: a string is truthy unless it is empty *)
Definition operatorSet (s : CalcState) : bool :=
  match operator s with
  | Some o => negb (String.eqb o "")
  | None => false
  end.

(** the argument of [inputConstant], ['pi' | 'e'] *)
Inductive Constant : Type := const_pi | const_e.

(** lines 147-153 *)
Definition handleCalculationError (s : CalcState) : CalcState :=
  setCalculationString ""
    (setWaitingForOperand true
       (setOperator None (setPreviousValue None (setDisplayValue "Error" s)))).

(** lines 155-161 *)
Definition clearAll (s : CalcState) : CalcState :=
  setCalculationString ""
    (setWaitingForOperand true
       (setOperator None (setPreviousValue None (setDisplayValue "0" s)))).

(** lines 163-169 *)
Definition clearEntry (s : CalcState) : CalcState :=
  if isError s then clearAll s else setDisplayValue "0" s.

(** lines 171-177 *)
Definition toggleSign (s : CalcState) : CalcState :=
  if isError s then s
  else
    let currentValue := parseFloat (displayValue s) in
    if negb (strictEq currentValue zero)
    then setDisplayValue (toString (mul currentValue minusOne)) s
    else s.

(** lines 179-186 *)
Definition backspace (s : CalcState) : CalcState :=
  if isError s || waitingForOperand s then s
  else if (1 <? String.length (displayValue s))%nat
       then setDisplayValue (JsString.dropLast (displayValue s)) s
       else setDisplayValue "0" s.

(** lines 188-201 *)
Definition inputDigit (digit : string) (s : CalcState) : CalcState :=
  if isError s then setWaitingForOperand false (setDisplayValue digit s)
  else if waitingForOperand s
       then setWaitingForOperand false (setDisplayValue digit s)
       else if (15 <=? String.length (displayValue s))%nat then s
            else setDisplayValue
                   (if String.eqb (displayValue s) "0" then digit
                    else displayValue s ++ digit) s.

(** lines 203-211 *)
Definition inputDecimal (s : CalcState) : CalcState :=
  if isError s then s
  else if waitingForOperand s
       then setWaitingForOperand false (setDisplayValue "0." s)
       else if negb (JsString.includesChar "." (displayValue s))
            then setDisplayValue (displayValue s ++ ".") s
            else s.

(** lines 213-218 *)
Definition inputPercent (s : CalcState) : CalcState :=
  if isError s then s
  else
    let currentValue := parseFloat (displayValue s) in
    let result := div currentValue hundred in
    setDisplayValue (toString result) s.

(** lines 267-274: the setters after [clearAll] win over its own *)
Definition inputConstant (constant : Constant) (s : CalcState) : CalcState :=
  let s1 := if isError s then clearAll s else s in
  let value := match constant with const_pi => Math_PI | const_e => Math_E end in
  setWaitingForOperand false (setDisplayValue (toString value) s1).

Section WithMath.
Context {M : MathLib}.

(** lines 276-285 *)
Definition calculate (prev current : number) (op : string) : number :=
  if String.eqb op op_add then add prev current
  else if String.eqb op op_sub then sub prev current
  else if String.eqb op op_mul then mul prev current
  else if String.eqb op op_div then div prev current
  else if String.eqb op op_pow then Math_pow prev current
  else current.

(** lines 220-239 *)
Definition performOperation (nextOperator : string) (s : CalcState) : CalcState :=
  if isError s then s
  else
    let inputValue := parseFloat (displayValue s) in
    let tail (s' : CalcState) :=
      setCalculationString (toString inputValue ++ " " ++ nextOperator)
        (setOperator (Some nextOperator) (setWaitingForOperand true s')) in
    match previousValue s with
    | None => tail (setPreviousValue (Some inputValue) s)
    | Some prev =>
        match operator s with
        | Some op =>
            if negb (String.eqb op "") then
              let result := calculate prev inputValue op in
              if negb (isFinite result) then handleCalculationError s
              else tail (setDisplayValue (toString result)
                           (setPreviousValue (Some result) s))
            else tail s
        | None => tail s
        end
    end.

(** the [switch] of lines 247-256; [None] is its [default: return] *)
Definition unaryResult (operation : string) (currentValue : number)
  : option number :=
  if String.eqb operation "sq" then Some (Math_pow currentValue two)
  else if String.eqb operation "sqrt" then Some (Math_sqrt currentValue)
  else if String.eqb operation "sin"
       then Some (Math_sin (div (mul currentValue Math_PI) oneEighty))
  else if String.eqb operation "cos"
       then Some (Math_cos (div (mul currentValue Math_PI) oneEighty))
  else if String.eqb operation "tan"
       then Some (Math_tan (div (mul currentValue Math_PI) oneEighty))
  else if String.eqb operation "log" then Some (Math_log10 currentValue)
  else if String.eqb operation "ln" then Some (Math_log currentValue)
  else None.

(** lines 241-265 *)
Definition performUnaryOperation (operation : string) (s : CalcState) : CalcState :=
  if isError s then s
  else
    let currentValue := parseFloat (displayValue s) in
    match unaryResult operation currentValue with
    | None => s
    | Some result =>
        if negb (isFinite result) then handleCalculationError s
        else setWaitingForOperand true (setDisplayValue (toString result) s)
    end.

(** lines 287-306: the new state and the calls of [addHistoryItem] *)
Definition handleEquals (s : CalcState) : CalcState * list HistoryDraft :=
  match previousValue s with
  | Some prev =>
      if operatorSet s then
        let op := match operator s with Some o => o | None => "" end in
        let inputValue := parseFloat (displayValue s) in
        let result := calculate prev inputValue op in
        if negb (isFinite result) then (handleCalculationError s, [])
        else
          let fullCalculation :=
            toString prev ++ " " ++ op ++ " " ++ toString inputValue in
          (setCalculationString (fullCalculation ++ " =")
             (setWaitingForOperand true
                (setOperator None
                   (setPreviousValue None
                      (setDisplayValue (toString result) s)))),
           [mkDraft manual result (Some fullCalculation) None None None])
      else (s, [])
  | None => (s, [])
  end.

(** The keypad: the buttons of lines 580-626. *)
Inductive Digit : Type := D0 | D1 | D2 | D3 | D4 | D5 | D6 | D7 | D8 | D9.

Definition digitString (d : Digit) : string :=
  match d with
  | D0 => "0" | D1 => "1" | D2 => "2" | D3 => "3" | D4 => "4"
  | D5 => "5" | D6 => "6" | D7 => "7" | D8 => "8" | D9 => "9"
  end.

Inductive BinOp : Type := Plus | Minus | Times | Divide | Power.

Definition binOpSign (o : BinOp) : string :=
  match o with
  | Plus => op_add | Minus => op_sub | Times => op_mul
  | Divide => op_div | Power => op_pow
  end.

Inductive UnaryOp : Type := Sq | Sqrt | Sin | Cos | Tan | Log | Ln.

Definition unaryName (u : UnaryOp) : string :=
  match u with
  | Sq => "sq" | Sqrt => "sqrt" | Sin => "sin" | Cos => "cos"
  | Tan => "tan" | Log => "log" | Ln => "ln"
  end.

Inductive Key : Type :=
| KDigit (d : Digit)
| KDecimal
| KPercent
| KToggleSign
| KBackspace
| KOperator (o : BinOp)
| KUnary (u : UnaryOp)
| KConstant (c : Constant)
| KEquals
| KClear
| KClearAll.

(** the [onClick] of the clear button, lines 584-591 *)
Definition clearButton (s : CalcState) : CalcState :=
  let isAC := negb (operatorSet s) && waitingForOperand s in
  if isAC then clearAll s else clearEntry s.

Definition press (k : Key) (s : CalcState) : CalcState * list HistoryDraft :=
  match k with
  | KDigit d => (inputDigit (digitString d) s, [])
  | KDecimal => (inputDecimal s, [])
  | KPercent => (inputPercent s, [])
  | KToggleSign => (toggleSign s, [])
  | KBackspace => (backspace s, [])
  | KOperator o => (performOperation (binOpSign o) s, [])
  | KUnary u => (performUnaryOperation (unaryName u) s, [])
  | KConstant c => (inputConstant c s, [])
  | KEquals => handleEquals s
  | KClear => (clearButton s, [])
  | KClearAll => (clearAll s, [])
  end.

(** A sequence of keys: the final state and the history drafts emitted,
    oldest first. *)
Fixpoint pressAll (ks : list Key) (s : CalcState) : CalcState * list HistoryDraft :=
  match ks with
  | [] => (s, [])
  | k :: rest =>
      let '(s1, out1) := press k s in
      let '(s2, out2) := pressAll rest s1 in
      (s2, (out1 ++ out2)%list)
  end.

End WithMath.

End Engine.

(* ================================================================= *)
(** ** The category handlers (History component, lines 91-138) *)

Module Categories.

(** the default value of the [customCategories] slot, App.tsx lines 11-22 *)
Definition defaultCategories : list string :=
  ["Food & Drink"; "Groceries"; "Shopping"; "Transport"; "Utilities";
   "Health"; "Entertainment"; "Home"; "Personal Care"; "Uncategorized"].

Fixpoint insertSorted (x : string) (l : list string) : list string :=
  match l with
  | [] => [x]
  | y :: rest => if JsString.leb x y then x :: l else y :: insertSorted x rest
  end.

(** [xs.sort()] with the default comparison: the strings in ascending order
    of their code units. *)
Fixpoint sort (l : list string) : list string :=
  match l with
  | [] => []
  | x :: rest => insertSorted x (sort rest)
  end.

(** [cats.some(c => c.toLowerCase() === name.toLowerCase())] *)
Definition existsIgnoringCase (name : string) (cats : list string) : bool :=
  existsb (fun c => String.eqb (JsString.toLowerCase c) (JsString.toLowerCase name)) cats.

(** lines 126-138: the category set after submitting [newCategoryInput] *)
Definition handleAddCategory (newCategoryInput : string)
  (customCategories : list string) : list string :=
  let newCat := JsString.trim newCategoryInput in
  if String.eqb newCat "" then customCategories
  else if existsIgnoringCase newCat customCategories then customCategories
  else sort (customCategories ++ [newCat]).

Definition renameInHistory (oldName newName : string) (item : HistoryItem)
  : HistoryItem :=
  match d_category (h_entry item) with
  | Some c =>
      if String.eqb c oldName
      then mkHistoryItem (h_id item) (h_date item)
             (mkDraft (d_type (h_entry item)) (d_total (h_entry item))
                      (d_calculation (h_entry item))
                      (d_description (h_entry item))
                      (Some newName)
                      (d_imageDataUrl (h_entry item)))
      else item
  | None => item
  end.

(** lines 91-118: the category set and the history after renaming
    [oldName] to the text typed in [newCategoryName] *)
Definition handleRenameCategory (oldName newCategoryName : string)
  (customCategories : list string) (history : list HistoryItem)
  : list string * list HistoryItem :=
  let newName := JsString.trim newCategoryName in
  if String.eqb newName "" || String.eqb newName oldName
  then (customCategories, history)
  else if existsIgnoringCase newName customCategories
  then (customCategories, history)
  else (sort (map (fun c => if String.eqb c oldName then newName else c)
                  customCategories),
        map (renameInHistory oldName newName) history).

(** lines 120-124; [confirmed] is the answer to [window.confirm] *)
Definition handleDeleteCategory (confirmed : bool) (categoryToDelete : string)
  (customCategories : list string) : list string :=
  if confirmed
  then filter (fun c => negb (String.eqb c categoryToDelete)) customCategories
  else customCategories.

(** The operations of the category manager. *)
Inductive CategoryOp : Type :=
| Add (newCategoryInput : string)
| Rename (oldName newCategoryName : string)
| Delete (confirmed : bool) (categoryToDelete : string).

Definition apply (op : CategoryOp) (cats : list string) : list string :=
  match op with
  | Add input => handleAddCategory input cats
  | Rename oldName newName => fst (handleRenameCategory oldName newName cats [])
  | Delete confirmed c => handleDeleteCategory confirmed c cats
  end.

Definition run (ops : list CategoryOp) (cats : list string) : list string :=
  fold_left (fun acc op => apply op acc) ops cats.

(** is the operation carried out as an insertion (not refused by a guard)? *)
Definition inserts (op : CategoryOp) (cats : list string) : bool :=
  match op with
  | Add input =>
      negb (String.eqb (JsString.trim input) "")
      && negb (existsIgnoringCase (JsString.trim input) cats)
  | Rename oldName newName =>
      negb (String.eqb (JsString.trim newName) ""
            || String.eqb (JsString.trim newName) oldName)
      && negb (existsIgnoringCase (JsString.trim newName) cats)
  | Delete _ _ => false
  end.

(** no two entries differ only in case (or not at all) *)
Definition NoCaseDup (cats : list string) : Prop :=
  NoDup (map JsString.toLowerCase cats).

(** ascending in the order of [sort] *)
Fixpoint sorted (l : list string) : bool :=
  match l with
  | [] => true
  | x :: rest =>
      match rest with
      | [] => true
      | y :: _ => JsString.leb x y && sorted rest
      end
  end.

End Categories.

(* ================================================================= *)
(** ** The scan pipeline and the application state *)

Module Scan.
Import JsNumber JsValue Sanitizer Engine.

(** lines 18-26 *)
Record EditableItem : Type := mkEditableItem {
  e_description : string;
  e_amount : string
}.

Record EditableScanResult : Type := mkEditable {
  e_total : number;
  e_category : string;
  e_items : list EditableItem
}.

(** the scan cells of the component, lines 119-129 *)
Record ScanState : Type := mkScan {
  isLoading : bool;
  error : option string;
  isScannerOpen : bool;
  scanResult : option CalculationResult;
  editableResult : option EditableScanResult;
  isScanDetailsVisible : bool;
  imageDataUrl : option string
}.

Definition setIsLoading (v : bool) (s : ScanState) : ScanState :=
  mkScan v (error s) (isScannerOpen s) (scanResult s) (editableResult s)
         (isScanDetailsVisible s) (imageDataUrl s).
Definition setError (v : option string) (s : ScanState) : ScanState :=
  mkScan (isLoading s) v (isScannerOpen s) (scanResult s) (editableResult s)
         (isScanDetailsVisible s) (imageDataUrl s).
Definition setIsScannerOpen (v : bool) (s : ScanState) : ScanState :=
  mkScan (isLoading s) (error s) v (scanResult s) (editableResult s)
         (isScanDetailsVisible s) (imageDataUrl s).
Definition setScanResult (v : option CalculationResult) (s : ScanState) : ScanState :=
  mkScan (isLoading s) (error s) (isScannerOpen s) v (editableResult s)
         (isScanDetailsVisible s) (imageDataUrl s).
Definition setEditableResult (v : option EditableScanResult) (s : ScanState) : ScanState :=
  mkScan (isLoading s) (error s) (isScannerOpen s) (scanResult s) v
         (isScanDetailsVisible s) (imageDataUrl s).
Definition setIsScanDetailsVisible (v : bool) (s : ScanState) : ScanState :=
  mkScan (isLoading s) (error s) (isScannerOpen s) (scanResult s) (editableResult s)
         v (imageDataUrl s).
Definition setImageDataUrl (v : option string) (s : ScanState) : ScanState :=
  mkScan (isLoading s) (error s) (isScannerOpen s) (scanResult s) (editableResult s)
         (isScanDetailsVisible s) v.

Definition idleScan : ScanState := mkScan false None false None None false None.

(** The component with the two persisted slots of [App] it is given. *)
Record App : Type := mkApp {
  calc : CalcState;
  scanState : ScanState;
  customCategories : list string;
  history : list HistoryItem
}.


(** App.tsx lines 40-47; [id] and [date] are read from the clock *)
Definition addHistoryItem (id date : string) (item : HistoryDraft)
  (history : list HistoryItem) : list HistoryItem :=
  firstn 50 (mkHistoryItem id date item :: history).

Definition noValidDataError : Exn :=
  Error "Could not detect any valid line items or amounts on the receipt.".

(** the terminal rejection of line 413 *)
Definition rejected (r : CalculationResult) : bool :=
  (List.length (items r) =? 0)%nat || leb (total r) zero.

(** lines 418-424 *)
Definition toEditable (r : CalculationResult) : EditableScanResult :=
  mkEditable (total r) (category r)
    (map (fun item => mkEditableItem (description item) (toFixed2 (amount item)))
         (items r)).

(** The [try] block of lines 406-425: the scan cells after the statements
    that ran, and the exception that left the block, if any.  [read] is
    the outcome of [readFileAsDataURL], [service] that of
    [processReceipt]. *)
Definition tryScan (read : result string) (service : result JsValue)
  (s : ScanState) : ScanState * option Exn :=
  match read with
  | Throw err => (s, Some err)
  | Ok dataUrl =>
      let s1 := setImageDataUrl (Some dataUrl) s in
      match service with
      | Throw err => (s1, Some err)
      | Ok rawResult =>
          match validateAndSanitizeScanResult rawResult with
          | Throw err => (s1, Some err)
          | Ok sanitizedResult =>
              if rejected sanitizedResult then (s1, Some noValidDataError)
              else
                (setIsScanDetailsVisible true
                   (setEditableResult (Some (toEditable sanitizedResult))
                      (setScanResult (Some sanitizedResult) s1)),
                 None)
          end
      end
  end.

(** lines 393-433 *)
Definition processImage (read : result string) (service : result JsValue)
  (a : App) : App :=
  let s0 := setError None (setIsLoading true (scanState a)) in
  let '(s1, thrown) := tryScan read service s0 in
  let s2 :=
    match thrown with
    | Some err => setImageDataUrl None (setError (Some (exnMessage err)) s1)
    | None => s1
    end in
  mkApp (calc a) (setIsScannerOpen false (setIsLoading false s2))
        (customCategories a) (history a).

(** the four setters of lines 469-472 *)
Definition clearStaging (s : ScanState) : ScanState :=
  setImageDataUrl None
    (setEditableResult None (setScanResult None (setIsScanDetailsVisible false s))).

(** lines 443-473 *)
Definition handleConfirmScan (id date : string) (a : App) : App :=
  let committed :=
    match editableResult (scanState a) with
    | Some editable =>
        if (0 <? List.length (e_items editable))%nat then
          let total := e_total editable in
          let calculationExpression :=
            JsString.join " + "
              (map (fun item => toString (parseSanitizedAmount (e_amount item)))
                   (e_items editable)) in
          let c1 :=
            setWaitingForOperand true
              (setOperator None
                 (setPreviousValue None
                    (setCalculationString (calculationExpression ++ " =")
                       (setDisplayValue (toString total) (calc a))))) in
          let finalCategory := JsString.trim (e_category editable) in
          let cats :=
            if negb (String.eqb finalCategory "")
               && negb (Categories.existsIgnoringCase finalCategory (customCategories a))
            then Categories.sort (customCategories a ++ [finalCategory])
            else customCategories a in
          mkApp c1 (scanState a) cats
            (addHistoryItem id date
               (mkDraft scan total (Some calculationExpression) None
                        (Some finalCategory) (imageDataUrl (scanState a)))
               (history a))
        else a
    | None => a
    end in
  mkApp (calc committed) (clearStaging (scanState committed))
        (customCategories committed) (history committed).

(** lines 475-481 *)
Definition handleDiscardScan (a : App) : App :=
  mkApp (clearAll (calc a)) (clearStaging (scanState a))
        (customCategories a) (history a).

(** lines 483-493 *)
Definition handleEditableResultUpdate (updatedResult : EditableScanResult)
  (s : ScanState) : ScanState :=
  let newTotal :=
    fold_left (fun sum item => add sum (parseSanitizedAmount (e_amount item)))
              (e_items updatedResult) zero in
  setEditableResult
    (Some (mkEditable (parseFloat (toFixed2 newTotal))
                      (e_category updatedResult) (e_items updatedResult))) s.


Fixpoint removeAt {A : Type} (index : nat) (l : list A) : list A :=
  match l, index with
  | [], _ => []
  | _ :: rest, O => rest
  | x :: rest, S i => x :: removeAt i rest
  end.

(** lines 508-512 *)
Definition handleRemoveItem (index : nat) (s : ScanState) : ScanState :=
  match editableResult s with
  | None => s
  | Some editable =>
      handleEditableResultUpdate
        (mkEditable (e_total editable) (e_category editable)
                    (removeAt index (e_items editable))) s
  end.

(** lines 514-517 *)
Definition handleCategoryChange (value : string) (s : ScanState) : ScanState :=
  match editableResult s with
  | None => s
  | Some editable =>
      setEditableResult
        (Some (mkEditable (e_total editable) value (e_items editable))) s
  end.

(** A key pressed in the application: the engine moves, the drafts it
    emits go to the ledger. *)
Definition pressKey {M : MathLib} (id date : string) (k : Key) (a : App) : App :=
  let '(c, drafts) := press k (calc a) in
  mkApp c (scanState a) (customCategories a)
        (fold_left (fun h d => addHistoryItem id date d h) drafts (history a)).

End Scan.

(* ================================================================= *)
(** ** Definitions used to state the properties *)

(** A host library to run the engine on examples: square roots and squares
    correctly rounded; the examples evaluate no other function of it. *)
Definition sampleMath : MathLib := {|
  Math_pow := fun x y =>
    if JsNumber.strictEq y Engine.two then JsNumber.mul x x else JsNumber.NaN;
  Math_sqrt := SFsqrt JsNumber.prec JsNumber.emax;
  Math_sin := fun _ => JsNumber.NaN;
  Math_cos := fun _ => JsNumber.NaN;
  Math_tan := fun _ => JsNumber.NaN;
  Math_log10 := fun _ => JsNumber.NaN;
  Math_log := fun _ => JsNumber.NaN
|}.

Module SanitizerSpec.
Import JsNumber JsValue Sanitizer.

(** Amount resolution in the words of the specification: a finite number
    is used as it is, a string is stripped of every character other than
    digits, [.] and [-] and must parse to a finite float, anything else is
    rejected. *)
Definition resolveAmount (rawAmount : JsValue) : option number :=
  match rawAmount with
  | JNum n => if isFinite n then Some n else None
  | JStr s =>
      let parsed := parseFloat (cleanAmount s) in
      if isFinite parsed then Some parsed else None
  | _ => None
  end.

(** the amount of an element that is an object with a resolvable amount *)
Definition accepted (item : JsValue) : option number :=
  match item with
  | JArr _ | JObj _ => resolveAmount (getProp item "amount")
  | _ => None
  end.

(** the elements of [raw.items] that are kept, in order, with their
    resolved amounts *)
Definition keptElements (elems : list JsValue) : list (JsValue * number) :=
  flat_map (fun item => match accepted item with
                        | Some a => [(item, a)]
                        | None => []
                        end) elems.

Definition rawItems (rawResult : JsValue) : list JsValue :=
  match getProp rawResult "items" with
  | JArr l => l
  | _ => []
  end.

(** the value whose conversion gives the description of a kept element *)
Definition descriptionSource (item : JsValue) : JsValue :=
  or_else (getProp item "description") (JStr "Unnamed Item").

Definition categorySource (rawResult : JsValue) : JsValue :=
  or_else (getProp rawResult "category") (JStr "Uncategorized").

(** a sanitized item is the image of a kept element *)
Definition imageOf (kept : JsValue * number) (it : Item) : Prop :=
  amount it = round2 (snd kept)
  /\ exists d, toStr (descriptionSource (fst kept)) = Some d
               /\ description it = JsString.trim d.

(** every conversion to a string the sanitizer performs on the payload
    succeeds *)
Definition convertible (rawResult : JsValue) : Prop :=
  (forall item a, In (item, a) (keptElements (rawItems rawResult)) ->
                  toStr (descriptionSource item) <> None)
  /\ toStr (categorySource rawResult) <> None.

Definition sumAmounts (l : list Item) : number :=
  fold_left add (map amount l) zero.

(** ** Inputs of the examples *)

Definition one : number := ofZ 1.

(** [{items:[{description:"Milk",amount:"$2.50"},
             {description:"Tax",amount:"bogus"}], category:"Groceries"}] *)
Definition milkReceipt : JsValue :=
  JObj [("items",
         JArr [JObj [("description", JStr "Milk"); ("amount", JStr "$2.50")];
               JObj [("description", JStr "Tax"); ("amount", JStr "bogus")]]);
        ("category", JStr "Groceries")].

(** [{items:[{description:{toString:1},amount:1}], category:"X"}] *)
Definition opaqueDescription : JsValue :=
  JObj [("items",
         JArr [JObj [("description", JObj [("toString", JNum one)]);
                     ("amount", JNum one)]]);
        ("category", JStr "X")].

(** [{items:[], category:{toString:null}}] *)
Definition opaqueCategory : JsValue :=
  JObj [("items", JArr []); ("category", JObj [("toString", JNull)])].

(** [{items:[{description:" ",amount:1}], category:"X"}] *)
Definition blankDescription : JsValue :=
  JObj [("items",
         JArr [JObj [("description", JStr " "); ("amount", JNum one)]]);
        ("category", JStr "X")].

End SanitizerSpec.

Module EngineSpec.
Import JsNumber Engine.

(** [ErrorState]: what [handleCalculationError] leaves *)
Definition errorState : CalcState := mkCalc "Error" None None true "".

(** the first code unit of the string is not the letter E *)
Definition notE (s : string) : Prop :=
  match s with
  | String c _ => c <> "E"%char
  | EmptyString => True
  end.

(** The display is ["Error"] only in [ErrorState]. *)
Definition wellFormed (s : CalcState) : Prop :=
  s = errorState \/ notE (displayValue s).

(** The states the component can be in: after any sequence of key presses,
    confirmed scans and discarded scans. *)
Inductive reachable {M : MathLib} : CalcState -> Prop :=
| reach_initial : reachable initial
| reach_press : forall k s, reachable s -> reachable (fst (press k s))
| reach_confirm : forall id date a,
    reachable (Scan.calc a) -> reachable (Scan.calc (Scan.handleConfirmScan id date a))
| reach_discard : forall a,
    reachable (Scan.calc a) -> reachable (Scan.calc (Scan.handleDiscardScan a)).

(** the keys that the absorbing state lets through *)
Definition leavesError (k : Key) : bool :=
  match k with
  | KDigit _ | KClear | KClearAll | KConstant _ => true
  | _ => false
  end.

(** the keys that compose an operand *)
Definition isEntryKey (k : Key) : bool :=
  match k with KDigit _ | KDecimal => true | _ => false end.

Definition constantValue (c : Constant) : number :=
  match c with const_pi => Math_PI | const_e => Math_E end.

(** The stashed operand and the pending operator are set together, and a
    pending operator is one of the five signs of the keypad. *)
Definition paired (s : CalcState) : Prop :=
  (previousValue s = None /\ operator s = None)
  \/ exists a o, previousValue s = Some a /\ operator s = Some (binOpSign o).


Definition five : number := ofZ 5.
Definition three : number := ofZ 3.
Definition nine : number := ofZ 9.
Definition fourteen : number := ofZ 14.

End EngineSpec.

(* ================================================================= *)
(** ** The manual expense form and the category field of the staging panel
       (Calculator.tsx, lines 132-135 and 519-556) *)

Module Expense.
Import JsNumber Scan.

Record ExpenseForm : Type := mkForm {
  isAddModalOpen : bool;
  expenseAmount : string;
  expenseDescription : string;
  expenseCategory : string
}.

(** the form after the four setters of lines 552-555 *)
Definition closedForm : ExpenseForm := mkForm false "" "" "".

(** [prev => [...prev, name].sort()] behind the guard shared by lines 457,
    523 and 548: [name] is not empty and matches no entry, case ignored *)
Definition addIfNew (name : string) (customCategories : list string) : list string :=
  if negb (String.eqb name "")
     && negb (Categories.existsIgnoringCase name customCategories)
  then Categories.sort (customCategories ++ [name])
  else customCategories.


Definition invalidAmountAlert : string := "Please enter a valid, positive amount.".
Definition missingCategoryAlert : string := "Please select or enter a category.".

(** lines 528-556: the form and the application after the submission, and
    the alert shown, if any *)
Definition handleAddExpense (id date : string) (f : ExpenseForm) (a : App)
  : ExpenseForm * App * option string :=
  let amount := parseFloat (expenseAmount f) in
  if String.eqb (expenseAmount f) "" || isNaN amount || leb amount zero
  then (f, a, Some invalidAmountAlert)
  else if String.eqb (JsString.trim (expenseCategory f)) ""
  then (f, a, Some missingCategoryAlert)
  else
    let description :=
      if String.eqb (JsString.trim (expenseDescription f)) "" then None
      else Some (JsString.trim (expenseDescription f)) in
    let newCat := JsString.trim (expenseCategory f) in
    (closedForm,
     mkApp (calc a) (scanState a) (addIfNew newCat (customCategories a))
           (addHistoryItem id date
              (mkDraft expense amount None description (Some newCat) None)
              (history a)),
     None).

End Expense.

(* ================================================================= *)
(** ** The history view: clearing and exporting (History component,
       lines 38-89) *)

Module Csv.
Import JsNumber.

Definition quote : ascii := ascii_of_nat 34.
Definition comma : ascii := ",".
Definition newline : ascii := ascii_of_nat 10.

(** the [replace] of line 55: every quote is doubled *)
Fixpoint doubleQuotes (str : string) : string :=
  match str with
  | EmptyString => EmptyString
  | String c rest =>
      if Ascii.eqb c quote then String quote (String quote (doubleQuotes rest))
      else String c (doubleQuotes rest)
  end.

Definition needsQuoting (str : string) : bool :=
  JsString.includesChar comma str || JsString.includesChar quote str
  || JsString.includesChar newline str.

(** lines 49-58, on the string of the field *)
Definition escapeCSV (str : string) : string :=
  if needsQuoting str
  then String quote (doubleQuotes str ++ String quote EmptyString)
  else str.

Definition headers : list string :=
  ["ID"; "Date"; "Type"; "Total"; "Description"; "Calculation"; "Category"].

Definition typeName (t : HistoryType) : string :=
  match t with scan => "scan" | manual => "manual" | expense => "expense" end.

(** [field || ''] *)
Definition orEmpty (field : option string) : string :=
  match field with Some str => str | None => "" end.

(** the seven values of a row, lines 66-74 *)
Definition fieldsOf (item : HistoryItem) : list string :=
  [h_id item; h_date item; typeName (d_type (h_entry item));
   toString (d_total (h_entry item));
   orEmpty (d_description (h_entry item));
   orEmpty (d_calculation (h_entry item));
   orEmpty (d_category (h_entry item))].

Definition csvLine (fields : list string) : string :=
  JsString.join (String comma EmptyString) (map escapeCSV fields).

(** the text of [csvRows.join('\n')] for rows of raw values *)
Definition csvText (rows : list (list string)) : string :=
  JsString.join (String newline EmptyString) (map csvLine rows).

(** lines 44-78: the text handed to the download, [None] when the function
    returns at once on an empty history.  The header line is joined as it
    is, the rows of the items follow from the oldest to the newest. *)
Definition exportToCSV (history : list HistoryItem) : option string :=
  if (List.length history =? 0)%nat then None
  else Some (JsString.join (String newline EmptyString)
               (JsString.join (String comma EmptyString) headers
                :: map (fun item => csvLine (fieldsOf item)) (rev history))).

(** lines 38-42; [confirmed] is the answer to [window.confirm] *)
Definition clearHistory (confirmed : bool) (history : list HistoryItem)
  : list HistoryItem :=
  if confirmed then [] else history.

End Csv.

Module CsvSpec.
Import Csv.

(** A reader of comma-separated text in the manner of RFC 4180, to state
    what the export can be read back as: a field is either bare, up to the
    next comma or line feed, or quoted, a doubled quote inside standing for
    a quote. *)
Inductive ReaderState : Type :=
| FieldStart
| Bare
| Quoted
| QuoteSeen.

Definition endField (field : string) (row : list string) : list string :=
  (row ++ [field])%list.

Fixpoint readCSV (text : string) (st : ReaderState) (field : string)
  (row : list string) (rows : list (list string)) : list (list string) :=
  match text with
  | EmptyString => (rows ++ [endField field row])%list
  | String c rest =>
      let append := field ++ String c EmptyString in
      match st with
      | Quoted =>
          if Ascii.eqb c quote then readCSV rest QuoteSeen field row rows
          else readCSV rest Quoted append row rows
      | FieldStart | Bare | QuoteSeen =>
          if Ascii.eqb c comma
          then readCSV rest FieldStart "" (endField field row) rows
          else if Ascii.eqb c newline
          then readCSV rest FieldStart "" [] (rows ++ [endField field row])%list
          else if Ascii.eqb c quote
          then match st with
               | FieldStart => readCSV rest Quoted field row rows
               | QuoteSeen => readCSV rest Quoted append row rows
               | _ => readCSV rest Bare append row rows
               end
          else readCSV rest Bare append row rows
      end
  end.

Definition parseCSV (text : string) : list (list string) :=
  readCSV text FieldStart "" [] [].

(** the text that may follow a field: nothing, or a comma or a line feed *)
Definition afterField (k : string) : Prop :=
  k = "" \/ (exists rest, k = String comma rest) \/ (exists rest, k = String newline rest).

(** the text that may follow a line: nothing, or a line feed *)
Definition afterLine (k : string) : Prop :=
  k = "" \/ exists rest, k = String newline rest.

End CsvSpec.

Module LedgerSpec.
Import Scan.


End LedgerSpec.

(* ================================================================= *)
(** * Properties *)

(** ** The number model on known values *)

Module JsNumberExamples.
Import JsNumber.

(** [String(0.1 + 0.2)], [String(1 / 3)], [String(1e21)], [String(1.5e-7)] *)
Example toString_examples :
  map toString [add (parseFloat "0.1") (parseFloat "0.2");
                div (parseFloat "1") (parseFloat "3");
                parseFloat "1e21"; parseFloat "0.00000015";
                Math_PI; Math_E; parseFloat "-0"; div (parseFloat "1") (parseFloat "0")]
  = ["0.30000000000000004"; "0.3333333333333333"; "1e+21"; "1.5e-7";
     "3.141592653589793"; "2.718281828459045"; "0"; "Infinity"].
Proof. vm_compute. reflexivity. Qed.

(** [(1.005).toFixed(2)] is ["1.00"]: the binary value is below 1.005 *)
Example toFixed2_examples :
  map (fun text => toFixed2 (parseFloat text))
      ["2.5"; "1.005"; "2.675"; "8.345"; "-0.001"; "0.005"; "1e21"; "123.456"]
  = ["2.50"; "1.00"; "2.67"; "8.35"; "-0.00"; "0.01"; "1e+21"; "123.46"].
Proof. vm_compute. reflexivity. Qed.

(** [parseFloat] reads the longest prefix that is a decimal literal *)
Example parseFloat_examples :
  map (fun text => toString (parseFloat text))
      ["  42abc"; ".5"; "5."; "-.5"; "."; "-"; "5-3"; "1.2.3"; "1e"; "Error"]
  = ["42"; "0.5"; "5"; "-0.5"; "NaN"; "NaN"; "5"; "1.2"; "1"; "NaN"].
Proof. vm_compute. reflexivity. Qed.

End JsNumberExamples.

(** ** The sanitizer *)

Module SanitizerProofs.
Import JsNumber JsValue Sanitizer SanitizerSpec.

Lemma object_guard (v : JsValue) :
  negb (truthy v) || negb (isObjectType v) = false <->
  (exists l, v = JArr l) \/ (exists props, v = JObj props).
Proof.
  split.
  - destruct v; cbn; intros H; try discriminate; eauto.
    + destruct b; discriminate.
    + rewrite orb_true_r in H. discriminate.
    + rewrite orb_true_r in H. discriminate.
  - intros [[l ->] | [props ->]]; reflexivity.
Qed.

Lemma resolve_agrees (rawAmount : JsValue) :
  match rawAmount with
  | JNum n => if isFinite n then Some n else None
  | JStr s =>
      let cleanedString := cleanAmount s in
      let parsed := parseFloat cleanedString in
      if negb (isNaN parsed) && isFinite parsed then Some parsed else None
  | _ => None
  end = resolveAmount rawAmount.
Proof.
  destruct rawAmount; cbn; try reflexivity.
  destruct (parseFloat (cleanAmount s)); reflexivity.
Qed.

(** One turn of the loop, read through [accepted]. *)
Lemma sanitizeLoop_step (item : JsValue) (rest : list JsValue) (acc : list Item) :
  sanitizeLoop (item :: rest) acc =
  match accepted item with
  | None => sanitizeLoop rest acc
  | Some a =>
      let* d := String_ (descriptionSource item) in
      sanitizeLoop rest (acc ++ [mkItem (JsString.trim d) (round2 a)])
  end.
Proof.
  cbn [sanitizeLoop].
  destruct (negb (truthy item) || negb (isObjectType item)) eqn:G.
  - assert (accepted item = None) as ->; [|reflexivity].
    destruct item; cbn in *; try reflexivity; discriminate.
  - apply object_guard in G.
    rewrite resolve_agrees.
    assert (accepted item = resolveAmount (getProp item "amount")) as ->.
    { destruct G as [[l ->] | [props ->]]; reflexivity. }
    reflexivity.
Qed.

(** What the loop returns, when it returns: the items pushed so far,
    followed by the images of the kept elements, in order. *)
Lemma sanitizeLoop_returns (elems : list JsValue) :
  forall acc out,
    sanitizeLoop elems acc = Ok out ->
    exists new, out = (acc ++ new)%list /\ Forall2 imageOf (keptElements elems) new.
Proof.
  induction elems as [|item rest IH]; intros acc out H.
  - cbn in H. injection H as <-. exists []. rewrite app_nil_r. split; constructor.
  - rewrite sanitizeLoop_step in H. cbn [keptElements flat_map].
    destruct (accepted item) as [a|] eqn:A.
    + unfold String_ in H.
      destruct (toStr (descriptionSource item)) as [d|] eqn:D; cbn in H; [|discriminate].
      apply IH in H as (new & -> & F).
      exists (mkItem (JsString.trim d) (round2 a) :: new). split.
      * now rewrite <- app_assoc.
      * cbn. constructor; [|exact F].
        split; [reflexivity|]. exists d. split; [exact D|reflexivity].
    + apply IH in H as (new & -> & F). exists new. split; [reflexivity|exact F].
Qed.

(** The loop returns as soon as the descriptions of the kept elements
    convert to strings. *)
Lemma sanitizeLoop_total (elems : list JsValue) :
  forall acc,
    (forall item a, In (item, a) (keptElements elems) ->
                    toStr (descriptionSource item) <> None) ->
    exists out, sanitizeLoop elems acc = Ok out.
Proof.
  induction elems as [|item rest IH]; intros acc H.
  - exists acc. reflexivity.
  - rewrite sanitizeLoop_step. cbn [keptElements flat_map] in H.
    destruct (accepted item) as [a|] eqn:A.
    + unfold String_.
      destruct (toStr (descriptionSource item)) as [d|] eqn:D.
      * cbn. apply IH. intros i b Hin. apply (H i b). cbn. now right.
      * exfalso. apply (H item a); [cbn; now left | exact D].
    + apply IH. intros i b Hin. apply (H i b). exact Hin.
Qed.

Lemma items_of_object (rawResult : JsValue) :
  (if isArray (getProp rawResult "items")
   then elements (getProp rawResult "items") else []) = rawItems rawResult.
Proof. unfold rawItems. destruct (getProp rawResult "items"); reflexivity. Qed.

Lemma fold_amounts (l : list Item) (z : number) :
  fold_left (fun sum item => add sum (amount item)) l z
  = fold_left add (map amount l) z.
Proof. revert z. induction l as [|x l IH]; intros z; cbn; [reflexivity|apply IH]. Qed.

(** The result of the sanitizer, when it returns one: the kept elements of
    [raw.items] in their order, each amount rounded to two decimals, the
    total recomputed from them and rounded again, the category converted
    and trimmed. *)
Lemma sanitize_returns (rawResult : JsValue) (r : CalculationResult) :
  validateAndSanitizeScanResult rawResult = Ok r ->
  Forall2 imageOf (keptElements (rawItems rawResult)) (items r)
  /\ total r = round2 (sumAmounts (items r))
  /\ exists c, toStr (categorySource rawResult) = Some c
               /\ category r = JsString.trim c.
Proof.
  unfold validateAndSanitizeScanResult.
  destruct (negb (truthy rawResult) || negb (isObjectType rawResult)); [discriminate|].
  rewrite items_of_object.
  destruct (sanitizeLoop (rawItems rawResult) []) as [out|err] eqn:L; cbn; [|discriminate].
  apply sanitizeLoop_returns in L as (new & -> & F). cbn in *.
  unfold String_. fold (categorySource rawResult).
  destruct (toStr (categorySource rawResult)) as [c|]; cbn; [|discriminate].
  intros H. injection H as <-. cbn. repeat split.
  - exact F.
  - unfold sumAmounts. now rewrite fold_amounts.
  - exists c. split; reflexivity.
Qed.

(** The sanitizer returns on every array or object whose kept descriptions
    and category convert to strings. *)
Lemma sanitize_total (rawResult : JsValue) :
  truthy rawResult = true -> isObjectType rawResult = true ->
  convertible rawResult ->
  exists r, validateAndSanitizeScanResult rawResult = Ok r.
Proof.
  intros T O [Hd Hc]. unfold validateAndSanitizeScanResult.
  rewrite T, O. cbn [negb orb]. rewrite items_of_object.
  destruct (sanitizeLoop_total (rawItems rawResult) [] Hd) as [out ->]. cbn.
  unfold String_. fold (categorySource rawResult).
  destruct (toStr (categorySource rawResult)) as [c|]; [|congruence].
  cbn. eauto.
Qed.

(** The format error is thrown exactly on [null], [undefined] and the
    values that are not of type object. *)
Lemma format_error_iff (rawResult : JsValue) :
  validateAndSanitizeScanResult rawResult = Throw formatError <->
  rawResult = JNull \/ rawResult = JUndefined \/ isObjectType rawResult = false.
Proof.
  split.
  - unfold validateAndSanitizeScanResult.
    destruct (negb (truthy rawResult) || negb (isObjectType rawResult)) eqn:G.
    + intros _. destruct rawResult; cbn in *; auto; discriminate.
    + rewrite items_of_object.
      destruct (sanitizeLoop (rawItems rawResult) []) as [out|err] eqn:L; cbn.
      * unfold String_.
        destruct (toStr _); cbn; discriminate.
      * intros H. injection H as ->. exfalso.
        revert L. generalize (@nil Item).
        induction (rawItems rawResult) as [|item rest IH]; intros acc L.
        -- discriminate.
        -- rewrite sanitizeLoop_step in L.
           destruct (accepted item); [|eauto].
           unfold String_ in L. destruct (toStr _); cbn in L; [eauto|discriminate].
  - intros [-> | [-> | H]]; try reflexivity.
    unfold validateAndSanitizeScanResult. rewrite H. cbn [negb].
    now rewrite orb_true_r.
Qed.

(** An array is let through the guard and sanitizes to the empty result. *)
Lemma sanitize_array (l : list JsValue) :
  validateAndSanitizeScanResult (JArr l)
  = Ok (mkCalculationResult zero "Uncategorized" []).
Proof. reflexivity. Qed.

End SanitizerProofs.

Module SanitizerClaims.
Import JsNumber JsValue Sanitizer SanitizerSpec.

(** The example of the specification: the unparsable ["bogus"] amount is
    dropped, ["$2.50"] is read as 2.5. *)
Example sanitize_milk :
  validateAndSanitizeScanResult milkReceipt
  = Ok (mkCalculationResult (parseFloat "2.50") "Groceries"
          [mkItem "Milk" (parseFloat "2.50")]).
Proof. vm_compute. reflexivity. Qed.

(** C1, at the input
    [{items:[{description:{toString:1},amount:1}], category:"X"}]: the only
    element of [items] is an object with a resolvable amount (the finite
    number 1), yet the sanitizer returns no [CalculationResult]:
    [String(item.description)] throws a [TypeError], because the own
    property [toString] is not callable and [valueOf] gives back the
    object.  The claim promises a result holding that element. *)
Theorem C1_sanitize_throws_on_kept_element :
  keptElements (rawItems opaqueDescription)
  = [(JObj [("description", JObj [("toString", JNum one)]); ("amount", JNum one)],
      one)]
  /\ validateAndSanitizeScanResult opaqueDescription = Throw conversionError.
Proof. split; vm_compute; reflexivity. Qed.

(** C5, at the input [{items:[{description:" ",amount:1}], category:"X"}]:
    the sanitizer returns a result whose description is the empty string
    (the placeholder is substituted before trimming), and sanitizing that
    result again replaces the empty description by ["Unnamed Item"]: the
    second result differs from the first. *)
Theorem C5_sanitize_not_idempotent_on_blank_description :
  exists r1 r2,
    validateAndSanitizeScanResult blankDescription = Ok r1
    /\ validateAndSanitizeScanResult (toRaw r1) = Ok r2
    /\ map description (items r1) = [""]
    /\ map description (items r2) = ["Unnamed Item"]
    /\ r1 <> r2.
Proof.
  eexists. eexists. split; [vm_compute; reflexivity|].
  split; [vm_compute; reflexivity|].
  split; [reflexivity|]. split; [reflexivity|]. discriminate.
Qed.

(** C9, at the input [{items:[], category:{toString:null}}]: the input is
    not [null] and of type object, it passes the guard, and the sanitizer
    throws a [TypeError] from [String(rawResult.category)] instead of
    returning. *)
Theorem C9_sanitize_throws_on_object :
  truthy opaqueCategory = true
  /\ isObjectType opaqueCategory = true
  /\ validateAndSanitizeScanResult opaqueCategory = Throw conversionError.
Proof. repeat split. Qed.

End SanitizerClaims.

(** ** The arithmetic engine *)

Module EngineProofs.
Import JsNumber Engine EngineSpec.

Lemma handleCalculationError_is_errorState (s : CalcState) :
  handleCalculationError s = errorState.
Proof. reflexivity. Qed.

Lemma clearAll_is_initial (s : CalcState) : clearAll s = initial.
Proof. reflexivity. Qed.

Lemma isError_true (s : CalcState) :
  isError s = true <-> displayValue s = "Error".
Proof. unfold isError. apply String.eqb_eq. Qed.

Lemma notE_not_error (s : CalcState) : notE (displayValue s) -> isError s = false.
Proof.
  unfold isError. intros H.
  destruct (String.eqb_spec (displayValue s) "Error") as [E|]; [|reflexivity].
  rewrite E in H. cbn in H. congruence.
Qed.

(** *** The first code unit of a printed number *)

Lemma digitsOf_head (z : Z) :
  exists c rest, digitsOf z = String c rest /\ c <> "E"%char.
Proof.
  unfold digitsOf. generalize (N.to_uint (Z.to_N z)). intros d.
  destruct d; cbn; eexists; eexists; (split; [reflexivity | discriminate]).
Qed.

Lemma notE_app (a b : string) : a <> "" -> notE a -> notE (a ++ b).
Proof. destruct a; cbn; [congruence | auto]. Qed.

Lemma notE_formatDecimal (s n : Z) : notE (formatDecimal s n).
Proof.
  unfold formatDecimal.
  destruct (digitsOf_head s) as (c & rest & -> & Hc).
  cbv zeta.
  set (k := Z.of_nat (String.length (String c rest))).
  destruct ((k <=? n) && (n <=? 21)); [cbn; exact Hc|].
  destruct ((0 <? n) && (n <=? 21)) eqn:E2.
  { apply andb_prop in E2 as [E2 _]. apply Z.ltb_lt in E2.
    destruct (Z.to_nat n) eqn:N; [lia|]. cbn. exact Hc. }
  destruct ((-6 <? n) && (n <=? 0)); [cbn; discriminate|].
  destruct (k =? 1); cbn; exact Hc.
Qed.

Lemma notE_positiveToString (m : positive) (e : Z) : notE (positiveToString m e).
Proof.
  unfold positiveToString.
  destruct (ratio m e) as [P Q].
  destruct (shortest _ _ _ _ _ _) as [s n'].
  apply notE_formatDecimal.
Qed.

Lemma notE_toString (x : number) : notE (toString x).
Proof.
  destruct x as [sg|sg| |sg m e]; cbn [toString].
  - cbn. discriminate.
  - destruct sg; cbn; discriminate.
  - cbn. discriminate.
  - destruct sg; [cbn; discriminate|]. cbn [append]. apply notE_positiveToString.
Qed.

Lemma notE_digit (d : Digit) : notE (digitString d).
Proof. destruct d; cbn; discriminate. Qed.

Lemma notE_append (a b : string) : notE a -> notE b -> notE (a ++ b).
Proof. destruct a; cbn; auto. Qed.

Lemma notE_dropLast (a : string) : notE a -> notE (JsString.dropLast a).
Proof. destruct a as [|c [|d a]]; cbn; auto. Qed.

(** *** The display is ["Error"] only in [ErrorState] *)

Section WithMath.
Context {M : MathLib}.

Ltac settle :=
  first [ left; reflexivity
        | right; cbn;
          first [ assumption | discriminate | apply notE_toString
                | apply notE_digit ] ].

Lemma press_wellFormed (k : Key) (s : CalcState) :
  wellFormed s -> wellFormed (fst (press k s)).
Proof.
  intros [-> | H].
  - destruct k; cbn; settle.
  - pose proof (notE_not_error s H) as NE.
    destruct k; cbn [press fst].
    + unfold inputDigit. rewrite NE.
      destruct (waitingForOperand s); [right; cbn; apply notE_digit|].
      destruct (15 <=? _)%nat; [now right|].
      right. cbn. destruct (String.eqb _ "0"); [apply notE_digit|].
      apply notE_append; [exact H | apply notE_digit].
    + unfold inputDecimal. rewrite NE.
      destruct (waitingForOperand s); [right; cbn; discriminate|].
      destruct (negb _); [|now right].
      right. cbn. apply notE_append; [exact H | cbn; discriminate].
    + unfold inputPercent. rewrite NE. right. cbn. apply notE_toString.
    + unfold toggleSign. rewrite NE.
      destruct (negb _); [|now right]. right. cbn. apply notE_toString.
    + unfold backspace. rewrite NE. cbn [orb].
      destruct (waitingForOperand s); [now right|].
      destruct (1 <? _)%nat; right; cbn; [now apply notE_dropLast | discriminate].
    + unfold performOperation. rewrite NE.
      destruct (previousValue s) as [prev|]; [|now right].
      destruct (operator s) as [op|]; [|now right].
      destruct (negb (String.eqb op "")); [|now right].
      destruct (negb (isFinite _)); [now left|].
      right. cbn. apply notE_toString.
    + unfold performUnaryOperation. rewrite NE.
      destruct (unaryResult _ _) as [r|]; [|now right].
      destruct (negb (isFinite r)); [now left|].
      right. cbn. apply notE_toString.
    + unfold inputConstant. rewrite NE. right. cbn. apply notE_toString.
    + unfold handleEquals.
      destruct (previousValue s) as [prev|]; [|now right].
      destruct (operatorSet s); [|now right].
      destruct (negb (isFinite _)); [now left|].
      right. cbn. apply notE_toString.
    + unfold clearButton, clearEntry. rewrite NE.
      destruct (_ && _); right; cbn; discriminate.
    + right. cbn. discriminate.
Qed.

Lemma confirm_wellFormed (id date : string) (a : Scan.App) :
  wellFormed (Scan.calc a) ->
  wellFormed (Scan.calc (Scan.handleConfirmScan id date a)).
Proof.
  intros H. unfold Scan.handleConfirmScan.
  destruct (Scan.editableResult (Scan.scanState a)) as [editable|]; [|exact H].
  destruct (0 <? _)%nat; [|exact H].
  right. cbn. apply notE_toString.
Qed.

Lemma reachable_wellFormed (s : CalcState) : reachable s -> wellFormed s.
Proof.
  induction 1.
  - right. cbn. discriminate.
  - now apply press_wellFormed.
  - now apply confirm_wellFormed.
  - right. cbn. discriminate.
Qed.

Lemma reachable_error (s : CalcState) :
  reachable s -> isError s = true -> s = errorState.
Proof.
  intros R E. destruct (reachable_wellFormed s R) as [-> | H]; [reflexivity|].
  rewrite (notE_not_error s H) in E. discriminate.
Qed.

(** *** Entering an operand *)

Lemma entry_keeps_operands (ks : list Key) :
  forall s, forallb isEntryKey ks = true ->
    previousValue (fst (pressAll ks s)) = previousValue s
    /\ operator (fst (pressAll ks s)) = operator s
    /\ snd (pressAll ks s) = [].
Proof.
  induction ks as [|k ks IH]; intros s H; [now cbn|].
  cbn in H. apply andb_prop in H as [Hk Hks].
  cbn [pressAll].
  destruct (press k s) as [s1 out1] eqn:P.
  specialize (IH s1 Hks).
  destruct (pressAll ks s1) as [s2 out2]. cbn in *.
  destruct IH as (-> & -> & ->).
  destruct k; try discriminate; cbn in P; injection P as <- <-; cbn.
  - unfold inputDigit.
    destruct (isError s), (waitingForOperand s),
      (15 <=? String.length (displayValue s))%nat; now cbn.
  - unfold inputDecimal.
    destruct (isError s), (waitingForOperand s),
      (negb (JsString.includesChar "." (displayValue s))); now cbn.
Qed.

End WithMath.

End EngineProofs.

Module EngineClaims.
Import JsNumber Engine EngineSpec EngineProofs.

Lemma binOpSign_nonempty (o : BinOp) : String.eqb (binOpSign o) "" = false.
Proof. destruct o; reflexivity. Qed.

Lemma division_by_zero_not_finite (a z : number) :
  isFinite a = true -> isZero z = true -> isFinite (div a z) = false.
Proof. destruct a, z; cbn; intros; try discriminate; reflexivity. Qed.

Section WithMath.
Context {M : MathLib}.

Lemma calculate_div (a b : number) : calculate a b op_div = div a b.
Proof. reflexivity. Qed.

Lemma equals_non_finite (s : CalcState) (prev : number) (op : string) :
  previousValue s = Some prev -> operator s = Some op -> op <> "" ->
  isFinite (calculate prev (parseFloat (displayValue s)) op) = false ->
  handleEquals s = (errorState, []).
Proof.
  intros Hp Ho Hne Hf. unfold handleEquals, operatorSet. rewrite Hp, Ho.
  destruct (String.eqb_spec op ""); [contradiction|]. cbn [negb].
  rewrite Hf. reflexivity.
Qed.

(** C2: with [a] stashed, the operator [op] pending and [b] on the
    display, a finite [calculate(a, op, b)] makes equals show it, hand
    exactly one entry of type manual to the ledger (total the result,
    calculation ["a op b"]), clear the stashed operand and the pending
    operator, await an operand and record the trace ["a op b ="]; the
    ledger receives that one entry at its head.  Without a pending
    operator equals changes nothing and records nothing. *)
Theorem C2_equals_computes_and_records
  (s : CalcState) (a b : number) (o : BinOp) :
  previousValue s = Some a ->
  operator s = Some (binOpSign o) ->
  parseFloat (displayValue s) = b ->
  isFinite (calculate a b (binOpSign o)) = true ->
  let result := calculate a b (binOpSign o) in
  let fullCalculation := toString a ++ " " ++ binOpSign o ++ " " ++ toString b in
  let entry := mkDraft manual result (Some fullCalculation) None None None in
  handleEquals s
  = (mkCalc (toString result) None None true (fullCalculation ++ " ="), [entry])
  /\ (forall id date app, Scan.calc app = s ->
        Scan.history (Scan.pressKey id date KEquals app)
        = firstn 50 (mkHistoryItem id date entry :: Scan.history app))
  /\ (forall s', operator s' = None -> handleEquals s' = (s', [])).
Proof.
  intros Hp Ho Hb Hf result fullCalculation entry.
  assert (E : handleEquals s
              = (mkCalc (toString result) None None true (fullCalculation ++ " ="),
                 [entry])).
  { unfold handleEquals, operatorSet. rewrite Hp, Ho, binOpSign_nonempty, Hb.
    cbn [negb]. fold result. unfold result at 1. rewrite Hf. reflexivity. }
  split; [exact E|]. split.
  - intros id date app <-. unfold Scan.pressKey. cbn [press]. rewrite E.
    reflexivity.
  - intros s' H. unfold handleEquals, operatorSet. rewrite H.
    destruct (previousValue s'); reflexivity.
Qed.

(** C3: for every finite [a], equals on [a] divided by a zero on the
    display leaves [ErrorState] (display ["Error"], operand, operator
    and trace cleared, awaiting an operand) and the ledger untouched;
    and in every state, an equals, a chained operator or a unary
    operation whose result is not finite does the same. *)
Theorem C3_non_finite_result_is_error (s : CalcState) (a : number) :
  isFinite a = true ->
  previousValue s = Some a ->
  operator s = Some op_div ->
  isZero (parseFloat (displayValue s)) = true ->
  (press KEquals s = (errorState, [])
   /\ forall id date app, Scan.calc app = s ->
        Scan.history (Scan.pressKey id date KEquals app) = Scan.history app)
  /\ (forall s' prev op,
        previousValue s' = Some prev -> operator s' = Some op -> op <> "" ->
        isFinite (calculate prev (parseFloat (displayValue s')) op) = false ->
        press KEquals s' = (errorState, []))
  /\ (forall s' prev op next,
        isError s' = false ->
        previousValue s' = Some prev -> operator s' = Some op -> op <> "" ->
        isFinite (calculate prev (parseFloat (displayValue s')) op) = false ->
        press (KOperator next) s' = (errorState, []))
  /\ (forall s' u r,
        isError s' = false ->
        unaryResult (unaryName u) (parseFloat (displayValue s')) = Some r ->
        isFinite r = false ->
        press (KUnary u) s' = (errorState, [])).
Proof.
  intros Ha Hp Ho Hz.
  assert (E : handleEquals s = (errorState, [])).
  { apply (equals_non_finite s a op_div Hp Ho); [discriminate|].
    rewrite calculate_div. now apply division_by_zero_not_finite. }
  repeat split.
  - exact E.
  - intros id date app <-. unfold Scan.pressKey. cbn [press]. now rewrite E.
  - intros s' prev op. apply equals_non_finite.
  - intros s' prev op next NE Hp' Ho' Hne Hf. cbn [press].
    unfold performOperation. rewrite NE, Hp', Ho'.
    destruct (String.eqb_spec op ""); [contradiction|]. cbn [negb].
    now rewrite Hf.
  - intros s' u r NE Hu Hf. cbn [press]. unfold performUnaryOperation.
    now rewrite NE, Hu, Hf.
Qed.

(** C7: outside [ErrorState], a unary scientific operation with a finite
    result replaces the display by the result and awaits an operand; the
    stashed operand, the pending operator and the trace stay as they
    were and nothing goes to the ledger.  Hence, when the host squares 3
    to 9, the keys [5 + 3 sq =] compute 5 + 9 = 14. *)
Theorem C7_unary_keeps_pending_operation
  (s : CalcState) (u : UnaryOp) (r : number) :
  isError s = false ->
  unaryResult (unaryName u) (parseFloat (displayValue s)) = Some r ->
  isFinite r = true ->
  press (KUnary u) s
  = (mkCalc (toString r) (previousValue s) (operator s) true (calculationString s),
     [])
  /\ (Math_pow three two = nine ->
      pressAll [KDigit D5; KOperator Plus; KDigit D3; KUnary Sq; KEquals] initial
      = (mkCalc "14" None None true "5 + 9 =",
         [mkDraft manual fourteen (Some "5 + 9") None None None])).
Proof.
  intros NE Hu Hf. split.
  - cbn [press]. unfold performUnaryOperation. rewrite NE, Hu, Hf. reflexivity.
  - intros Hsq.
    assert (P3 : parseFloat "3" = three) by (vm_compute; reflexivity).
    assert (P9 : parseFloat "9" = nine) by (vm_compute; reflexivity).
    assert (T9 : toString nine = "9") by (vm_compute; reflexivity).
    assert (S3 : pressAll [KDigit D5; KOperator Plus; KDigit D3] initial
                 = (mkCalc "3" (Some five) (Some "+") false "5 +", [])).
    { vm_compute. reflexivity. }
    change [KDigit D5; KOperator Plus; KDigit D3; KUnary Sq; KEquals]
      with ([KDigit D5; KOperator Plus; KDigit D3] ++ [KUnary Sq; KEquals])%list.
    assert (A : forall ks1 ks2 s0,
               pressAll (ks1 ++ ks2)%list s0
               = let '(s1, o1) := pressAll ks1 s0 in
                 let '(s2, o2) := pressAll ks2 s1 in (s2, (o1 ++ o2)%list)).
    { induction ks1 as [|k ks1 IH]; intros ks2 s0; cbn [pressAll app].
      - destruct (pressAll ks2 s0). reflexivity.
      - destruct (press k s0) as [s1 o1]. rewrite IH.
        destruct (pressAll ks1 s1) as [s2 o2].
        destruct (pressAll ks2 s2) as [s3 o3]. now rewrite app_assoc. }
    rewrite A, S3. cbn [pressAll press].
    unfold performUnaryOperation. cbn [isError displayValue String.eqb Ascii.eqb Bool.eqb].
    cbn [unaryName unaryResult String.eqb Ascii.eqb Bool.eqb].
    rewrite P3, Hsq. cbn [isFinite nine ofZ negb].
    change (isFinite nine) with true. cbn [negb].
    rewrite T9.
    unfold handleEquals, operatorSet.
    cbn [previousValue operator displayValue setWaitingForOperand
         setDisplayValue app].
    rewrite P9. vm_compute. reflexivity.
Qed.

(** C6, as amended: in every reachable state whose display is
    ["Error"], every key other than a digit, clear or a constant leaves
    the state unchanged and records nothing; a digit starts a fresh
    entry; clear and clear-all lead to the identity state; a constant
    resets the state and loads the constant as an entry being
    composed. *)
Theorem C6_error_state_absorbing (s : CalcState) :
  reachable s ->
  isError s = true ->
  (forall k, leavesError k = false -> press k s = (s, []))
  /\ (forall d, press (KDigit d) s = (mkCalc (digitString d) None None false "", []))
  /\ press KClear s = (initial, [])
  /\ press KClearAll s = (initial, [])
  /\ (forall c, press (KConstant c) s
                = (mkCalc (toString (constantValue c)) None None false "", [])).
Proof.
  intros R E. rewrite (reachable_error s R E).
  split; [|split; [|split; [|split]]].
  - intros k Hk. destruct k; try discriminate; reflexivity.
  - intros d. reflexivity.
  - reflexivity.
  - reflexivity.
  - intros c. destruct c; reflexivity.
Qed.

End WithMath.

(** C2 on [5 + 3 =]. *)
Lemma C2_equals_witness :
  @handleEquals sampleMath (mkCalc "3" (Some five) (Some op_add) false "5 +")
  = (mkCalc (toString (@calculate sampleMath five three op_add)) None None true
            ((toString five ++ " " ++ op_add ++ " " ++ toString three) ++ " ="),
     [mkDraft manual (@calculate sampleMath five three op_add)
              (Some (toString five ++ " " ++ op_add ++ " " ++ toString three))
              None None None]).
Proof.
  refine (proj1 (@C2_equals_computes_and_records sampleMath
                   (mkCalc "3" (Some five) (Some op_add) false "5 +")
                   five three Plus _ _ _ _)).
  - reflexivity.
  - reflexivity.
  - vm_compute. reflexivity.
  - vm_compute. reflexivity.
Defined.

(** C3 on [5 / 0 =]. *)
Lemma C3_division_witness :
  @press sampleMath KEquals (mkCalc "0" (Some five) (Some op_div) false ("5 " ++ op_div))
  = (errorState, []).
Proof.
  refine (proj1 (proj1 (@C3_non_finite_result_is_error sampleMath
                          (mkCalc "0" (Some five) (Some op_div) false ("5 " ++ op_div))
                          five _ _ _ _))).
  - reflexivity.
  - reflexivity.
  - reflexivity.
  - vm_compute. reflexivity.
Defined.

(** C7 on the square root of 9 in the middle of [5 + ...], and on the keys
    [5 + 3 sq =] with a host that squares 3 to 9. *)
Lemma C7_unary_witness :
  @press sampleMath (KUnary Sqrt) (mkCalc "9" (Some five) (Some op_add) false "5 +")
  = (mkCalc (toString three) (Some five) (Some op_add) true "5 +", [])
  /\ @pressAll sampleMath
       [KDigit D5; KOperator Plus; KDigit D3; KUnary Sq; KEquals] initial
     = (mkCalc "14" None None true "5 + 9 =",
        [mkDraft manual fourteen (Some "5 + 9") None None None]).
Proof.
  refine (match @C7_unary_keeps_pending_operation sampleMath
                  (mkCalc "9" (Some five) (Some op_add) false "5 +")
                  Sqrt three _ _ _ with
          | conj A B => conj A (B _)
          end).
  - reflexivity.
  - vm_compute. reflexivity.
  - reflexivity.
  - vm_compute. reflexivity.
Defined.

(** the state after [5 / 0 =] is reachable and shows ["Error"] *)
Lemma errorState_reachable : @reachable sampleMath errorState.
Proof.
  change errorState
    with (fst (@press sampleMath KEquals
                 (mkCalc "0" (Some five) (Some op_div) false ("5 " ++ op_div)))).
  apply reach_press.
  change (mkCalc "0" (Some five) (Some op_div) false ("5 " ++ op_div))
    with (fst (@press sampleMath (KDigit D0)
                 (mkCalc "5" (Some five) (Some op_div) true ("5 " ++ op_div)))).
  apply reach_press.
  replace (mkCalc "5" (Some five) (Some op_div) true ("5 " ++ op_div))
    with (fst (@press sampleMath (KOperator Divide)
                 (mkCalc "5" None None false "")))
    by (vm_compute; reflexivity).
  apply reach_press.
  change (mkCalc "5" None None false "")
    with (fst (@press sampleMath (KDigit D5) initial)).
  apply reach_press. apply reach_initial.
Defined.

(** C6 as amended, on the percent key in the state after [5 / 0 =]. *)
Lemma C6_error_state_witness :
  @press sampleMath KPercent errorState = (errorState, []).
Proof.
  refine (proj1 (@C6_error_state_absorbing sampleMath errorState
                   errorState_reachable _) KPercent _); reflexivity.
Defined.

(** C6 as stated fails: in the state after [5 / 0 =] the display is
    ["Error"], the key for the constant pi is neither a digit nor a clear,
    and pressing it changes the state. *)
Lemma C6_constant_leaves_error_state :
  displayValue errorState = "Error"
  /\ @reachable sampleMath errorState
  /\ @press sampleMath (KConstant const_pi) errorState
     = (mkCalc "3.141592653589793" None None false "", [])
  /\ fst (@press sampleMath (KConstant const_pi) errorState) <> errorState.
Proof.
  split; [reflexivity|]. split; [exact errorState_reachable|].
  split; [vm_compute; reflexivity|].
  vm_compute. discriminate.
Qed.

End EngineClaims.

(** ** The category set *)

Module CategoryProofs.
Import Categories.

(** *** The order of [sort] *)

Ltac order_cases :=
  repeat match goal with
         | |- context [N.ltb ?a ?b] => destruct (N.ltb_spec a b)
         | H : context [N.ltb ?a ?b] |- _ => destruct (N.ltb_spec a b)
         end; try discriminate; try reflexivity; try lia.

Lemma ltb_asym (a : string) : forall b, JsString.ltb a b = true -> JsString.ltb b a = false.
Proof.
  induction a as [|x a IH]; intros [|y b]; cbn; intros H; try reflexivity;
    try discriminate.
  order_cases. now apply IH.
Qed.

Lemma leb_total (a b : string) : JsString.leb a b = false -> JsString.leb b a = true.
Proof.
  unfold JsString.leb. intros H. apply negb_false_iff in H.
  now rewrite (ltb_asym _ _ H).
Qed.

Lemma ltb_negatively_transitive (a : string) :
  forall b c, JsString.ltb b a = false -> JsString.ltb c b = false ->
              JsString.ltb c a = false.
Proof.
  induction a as [|x a IH]; intros [|y b] [|z c]; cbn; intros H1 H2;
    try reflexivity; try discriminate.
  order_cases.
  assert (JsString.code x = JsString.code y) as E1 by lia.
  assert (JsString.code y = JsString.code z) as E2 by lia.
  eapply IH; eassumption.
Qed.

Lemma leb_trans (a b c : string) :
  JsString.leb a b = true -> JsString.leb b c = true -> JsString.leb a c = true.
Proof.
  unfold JsString.leb. rewrite !negb_true_iff. intros H1 H2.
  eapply ltb_negatively_transitive; eassumption.
Qed.

(** *** [sort] gives an ascending rearrangement *)

Lemma sorted_cons_inv (x : string) (l : list string) :
  sorted (x :: l) = true -> sorted l = true.
Proof.
  destruct l as [|y l]; [reflexivity|]. cbn [sorted].
  intros H. now apply andb_prop in H.
Qed.

Lemma insertSorted_sorted (x : string) (l : list string) :
  sorted l = true -> sorted (insertSorted x l) = true.
Proof.
  induction l as [|y l IH]; intros H; [reflexivity|].
  cbn [insertSorted]. destruct (JsString.leb x y) eqn:L.
  - change (JsString.leb x y && sorted (y :: l) = true). now rewrite L, H.
  - pose proof (IH (sorted_cons_inv _ _ H)) as S.
    destruct l as [|z l].
    + cbn. now rewrite (leb_total _ _ L).
    + cbn [insertSorted] in *. cbn [sorted] in H. apply andb_prop in H as [Hyz _].
      destruct (JsString.leb x z).
      * change (JsString.leb y x && sorted (x :: z :: l) = true).
        now rewrite (leb_total _ _ L), S.
      * change (JsString.leb y z && sorted (z :: insertSorted x l) = true).
        now rewrite Hyz, S.
Qed.

Lemma sort_sorted (l : list string) : sorted (sort l) = true.
Proof.
  induction l as [|x l IH]; [reflexivity|]. cbn [sort].
  now apply insertSorted_sorted.
Qed.

Lemma insertSorted_perm (x : string) (l : list string) :
  Permutation (insertSorted x l) (x :: l).
Proof.
  induction l as [|y l IH]; [reflexivity|]. cbn [insertSorted].
  destruct (JsString.leb x y); [reflexivity|].
  rewrite IH. apply perm_swap.
Qed.

Lemma sort_perm (l : list string) : Permutation (sort l) l.
Proof.
  induction l as [|x l IH]; [reflexivity|]. cbn [sort].
  rewrite insertSorted_perm. now constructor.
Qed.

Lemma sorted_head_least (x : string) (l : list string) :
  sorted (x :: l) = true -> Forall (fun y => JsString.leb x y = true) l.
Proof.
  revert x. induction l as [|y l IH]; intros x H; [constructor|].
  cbn [sorted] in H. apply andb_prop in H as [Hxy Hs].
  constructor; [exact Hxy|].
  eapply Forall_impl; [|apply (IH y Hs)].
  intros z Hz. eapply leb_trans; eassumption.
Qed.

Lemma sorted_from_least (x : string) (l : list string) :
  Forall (fun y => JsString.leb x y = true) l -> sorted l = true ->
  sorted (x :: l) = true.
Proof.
  destruct l as [|y l]; [reflexivity|]. intros F S.
  change (JsString.leb x y && sorted (y :: l) = true).
  inversion F; subst. now rewrite H1, S.
Qed.

Lemma filter_sorted (p : string -> bool) (l : list string) :
  sorted l = true -> sorted (filter p l) = true.
Proof.
  induction l as [|x l IH]; intros H; [reflexivity|].
  pose proof (IH (sorted_cons_inv _ _ H)) as S.
  cbn [filter]. destruct (p x); [|exact S].
  apply sorted_from_least; [|exact S].
  apply sorted_head_least in H. rewrite Forall_forall in *.
  intros y Hy. apply H. apply filter_In in Hy. tauto.
Qed.

(** *** Entries that differ only in case *)

Lemma existsIgnoringCase_false (name : string) (cats : list string) :
  existsIgnoringCase name cats = false ->
  ~ In (JsString.toLowerCase name) (map JsString.toLowerCase cats).
Proof.
  unfold existsIgnoringCase. intros H Hin.
  apply in_map_iff in Hin as (c & Hc & Hin).
  assert (existsb (fun c0 => String.eqb (JsString.toLowerCase c0)
                                        (JsString.toLowerCase name)) cats = true).
  { apply existsb_exists. exists c. split; [exact Hin|]. now apply String.eqb_eq. }
  congruence.
Qed.

Lemma sort_NoCaseDup (l : list string) : NoCaseDup l -> NoCaseDup (sort l).
Proof.
  unfold NoCaseDup. intros H.
  eapply Permutation_NoDup; [|exact H].
  apply Permutation_map. symmetry. apply sort_perm.
Qed.

Lemma add_NoCaseDup (newCat : string) (cats : list string) :
  NoCaseDup cats -> existsIgnoringCase newCat cats = false ->
  NoCaseDup (cats ++ [newCat]).
Proof.
  unfold NoCaseDup. intros H E. rewrite map_app. cbn.
  apply existsIgnoringCase_false in E.
  eapply Permutation_NoDup; [apply Permutation_cons_append|].
  now constructor.
Qed.

Lemma rename_members (oldName newName : string) (cats : list string) (y : string) :
  In y (map (fun c => if String.eqb c oldName then newName else c) cats) ->
  (y = newName /\ In oldName cats) \/ (In y cats /\ y <> oldName).
Proof.
  induction cats as [|c cats IH]; cbn; [tauto|].
  destruct (String.eqb_spec c oldName) as [->|N]; intros [<-|H]; auto;
    destruct (IH H) as [[? ?]|[? ?]]; auto.
Qed.

Lemma rename_NoCaseDup (oldName newName : string) (cats : list string) :
  NoCaseDup cats -> existsIgnoringCase newName cats = false ->
  NoCaseDup (map (fun c => if String.eqb c oldName then newName else c) cats).
Proof.
  unfold NoCaseDup. intros H E. apply existsIgnoringCase_false in E.
  induction cats as [|c cats IH]; [constructor|].
  cbn [map] in *. inversion H as [|? ? Hc Hrest]; subst.
  assert (E' : ~ In (JsString.toLowerCase newName) (map JsString.toLowerCase cats))
    by (intros X; apply E; now right).
  constructor; [|now apply IH].
  intros Hin. apply in_map_iff in Hin as (y & Hy & Hin).
  apply rename_members in Hin as [[-> Hold]|[Hin Hne]].
  - destruct (String.eqb_spec c oldName) as [->|N].
    + apply Hc. apply in_map. exact Hold.
    + apply E. left. now symmetry.
  - destruct (String.eqb_spec c oldName) as [->|N].
    + apply E'. rewrite <- Hy. now apply in_map.
    + apply Hc. rewrite <- Hy. now apply in_map.
Qed.

Lemma filter_NoCaseDup (p : string -> bool) (cats : list string) :
  NoCaseDup cats -> NoCaseDup (filter p cats).
Proof.
  unfold NoCaseDup. induction cats as [|c cats IH]; intros H; [constructor|].
  cbn [map filter] in *. inversion H as [|? ? Hc Hrest]; subst.
  destruct (p c); [|now apply IH].
  cbn [map]. constructor; [|now apply IH].
  intros Hin. apply Hc. apply in_map_iff in Hin as (y & Hy & Hin).
  apply filter_In in Hin as [Hin _]. rewrite <- Hy. now apply in_map.
Qed.

Lemma apply_NoCaseDup (op : CategoryOp) (cats : list string) :
  NoCaseDup cats -> NoCaseDup (apply op cats).
Proof.
  intros H. destruct op as [input|oldName newName|confirmed c]; cbn [apply].
  - unfold handleAddCategory.
    destruct (String.eqb _ ""); [exact H|].
    destruct (existsIgnoringCase _ cats) eqn:E; [exact H|].
    apply sort_NoCaseDup. now apply add_NoCaseDup.
  - unfold handleRenameCategory.
    destruct (_ || _); [exact H|].
    destruct (existsIgnoringCase _ cats) eqn:E; [exact H|].
    cbn [fst]. apply sort_NoCaseDup. now apply rename_NoCaseDup.
  - unfold handleDeleteCategory. destruct confirmed; [|exact H].
    now apply filter_NoCaseDup.
Qed.

Lemma default_NoCaseDup : NoCaseDup defaultCategories.
Proof.
  unfold NoCaseDup. vm_compute.
  repeat (constructor; [cbn; intuition discriminate|]). constructor.
Qed.

Lemma run_NoCaseDup (ops : list CategoryOp) :
  forall cats, NoCaseDup cats -> NoCaseDup (run ops cats).
Proof.
  unfold run. induction ops as [|op ops IH]; intros cats H; [exact H|].
  cbn [fold_left]. apply IH. now apply apply_NoCaseDup.
Qed.

Lemma apply_inserts_sorted (op : CategoryOp) (cats : list string) :
  inserts op cats = true -> sorted (apply op cats) = true.
Proof.
  destruct op as [input|oldName newName|confirmed c]; cbn [inserts apply];
    intros H; try discriminate.
  - apply andb_prop in H as [H1 H2]. unfold handleAddCategory.
    apply negb_true_iff in H1, H2. rewrite H1, H2. apply sort_sorted.
  - apply andb_prop in H as [H1 H2]. unfold handleRenameCategory.
    apply negb_true_iff in H1, H2. rewrite H1, H2. apply sort_sorted.
Qed.

Lemma apply_keeps_sorted (op : CategoryOp) (cats : list string) :
  sorted cats = true -> sorted (apply op cats) = true.
Proof.
  intros H. destruct op as [input|oldName newName|confirmed c]; cbn [apply].
  - unfold handleAddCategory.
    destruct (String.eqb _ ""); [exact H|].
    destruct (existsIgnoringCase _ cats); [exact H|]. apply sort_sorted.
  - unfold handleRenameCategory.
    destruct (_ || _); [exact H|].
    destruct (existsIgnoringCase _ cats); [exact H|]. apply sort_sorted.
  - unfold handleDeleteCategory. destruct confirmed; [|exact H].
    now apply filter_sorted.
Qed.

Lemma run_keeps_sorted (ops : list CategoryOp) :
  forall cats, sorted cats = true -> sorted (run ops cats) = true.
Proof.
  unfold run. induction ops as [|op ops IH]; intros cats H; [exact H|].
  cbn [fold_left]. apply IH. now apply apply_keeps_sorted.
Qed.

Lemma run_app (ops1 ops2 : list CategoryOp) (cats : list string) :
  run (ops1 ++ ops2) cats = run ops2 (run ops1 cats).
Proof. unfold run. apply fold_left_app. Qed.

End CategoryProofs.

Module CategoryClaims.
Import Categories CategoryProofs.

(** C8, as amended: from the initial category set, after every sequence
    of add, rename and delete operations no two entries differ only in
    case; the set is sorted ascending after every add or rename that is
    carried out, and stays sorted under all later operations (a delete
    does not sort: it keeps a sorted set sorted). *)
Theorem C8_category_set_invariant (ops : list CategoryOp) :
  NoCaseDup (run ops defaultCategories)
  /\ (forall op later,
        inserts op (run ops defaultCategories) = true ->
        sorted (run (ops ++ op :: later) defaultCategories) = true)
  /\ (forall op cats, sorted cats = true -> sorted (apply op cats) = true).
Proof.
  split; [|split].
  - apply run_NoCaseDup, default_NoCaseDup.
  - intros op later H. rewrite run_app.
    change (run (op :: later) (run ops defaultCategories))
      with (run later (apply op (run ops defaultCategories))).
    apply run_keeps_sorted. now apply apply_inserts_sorted.
  - intros op cats. apply apply_keeps_sorted.
Qed.

(** C8 as stated fails: deleting ["Home"] from the initial set, which is
    not sorted, leaves a set that is not sorted ascending (["Utilities"]
    still comes before ["Health"]). *)
Lemma C8_delete_leaves_unsorted :
  run [Delete true "Home"] defaultCategories
  = ["Food & Drink"; "Groceries"; "Shopping"; "Transport"; "Utilities";
     "Health"; "Entertainment"; "Personal Care"; "Uncategorized"]
  /\ sorted (run [Delete true "Home"] defaultCategories) = false.
Proof. split; vm_compute; reflexivity. Qed.

End CategoryClaims.

(** ** The scan pipeline *)

Module ScanClaims.
Import JsNumber JsValue Sanitizer Engine Scan.

Lemma rejected_iff (r : CalculationResult) :
  rejected r = true <-> items r = [] \/ leb (total r) zero = true.
Proof.
  unfold rejected. rewrite orb_true_iff, Nat.eqb_eq.
  split; (intros [H|H]; [left|right; exact H]).
  - now apply length_zero_iff_nil.
  - now rewrite H.
Qed.

(** C4: once the payload is sanitized to [r], the scan throws the
    no-valid-data error exactly when [r] has no item or a total at most 0.
    And whenever a scan fails, for any reason, the ledger, the engine, the
    category set, the staged editable result and the scan result are left
    as they were: the failure shows as one error message, the captured
    image is dropped and the loading and scanner flags are lowered. *)
Theorem C4_terminal_rejection
  (dataUrl : string) (rawResult : JsValue) (r : CalculationResult) (s : ScanState) :
  validateAndSanitizeScanResult rawResult = Ok r ->
  (snd (tryScan (Ok dataUrl) (Ok rawResult) s) = Some noValidDataError
   <-> items r = [] \/ leb (total r) zero = true)
  /\ (forall read service a err,
        snd (tryScan read service (setError None (setIsLoading true (scanState a))))
        = Some err ->
        let a' := processImage read service a in
        history a' = history a
        /\ calc a' = calc a
        /\ customCategories a' = customCategories a
        /\ editableResult (scanState a') = editableResult (scanState a)
        /\ scanResult (scanState a') = scanResult (scanState a)
        /\ isScanDetailsVisible (scanState a') = isScanDetailsVisible (scanState a)
        /\ error (scanState a') = Some (exnMessage err)
        /\ imageDataUrl (scanState a') = None
        /\ isLoading (scanState a') = false
        /\ isScannerOpen (scanState a') = false).
Proof.
  intros Hs. split.
  - rewrite <- rejected_iff. unfold tryScan. rewrite Hs.
    destruct (rejected r); cbn; split; intros H; try reflexivity; discriminate.
  - intros read service a err H a'. subst a'. unfold processImage.
    destruct (tryScan read service _) as [s1 thrown] eqn:T.
    cbn [snd] in H. subst thrown.
    assert (K : editableResult s1 = editableResult (scanState a)
                /\ scanResult s1 = scanResult (scanState a)
                /\ isScanDetailsVisible s1 = isScanDetailsVisible (scanState a)).
    { unfold tryScan in T.
      destruct read as [url|e1]; [|injection T as <- _; now cbn].
      destruct service as [raw|e2]; [|injection T as <- _; now cbn].
      destruct (validateAndSanitizeScanResult raw) as [r'|e3];
        [|injection T as <- _; now cbn].
      destruct (rejected r'); [injection T as <- _; now cbn|discriminate]. }
    destruct K as (K1 & K2 & K3). cbn. now rewrite K1, K2, K3.
Qed.

(** C4 on the payload [{items:[]}]. *)
Lemma C4_rejection_witness :
  snd (tryScan (Ok "data:image/png;base64,AAAA")
               (Ok (JObj [("items", JArr [])])) idleScan)
  = Some noValidDataError
  <-> items (mkCalculationResult zero "Uncategorized" []) = []
      \/ leb (total (mkCalculationResult zero "Uncategorized" [])) zero = true.
Proof.
  refine (proj1 (C4_terminal_rejection "data:image/png;base64,AAAA"
                   (JObj [("items", JArr [])])
                   (mkCalculationResult zero "Uncategorized" []) idleScan _)).
  vm_compute. reflexivity.
Defined.

(** C10: confirming a staged scan whose item list is empty records
    nothing in the ledger and leaves the engine and the category set as
    they were, yet it clears the staging cells (details hidden, scan
    result, editable result and captured image dropped), which is what
    every confirm does to them. *)
Theorem C10_confirm_without_items
  (id date : string) (a : App) (editable : EditableScanResult) :
  editableResult (scanState a) = Some editable ->
  e_items editable = [] ->
  let a' := handleConfirmScan id date a in
  history a' = history a
  /\ calc a' = calc a
  /\ customCategories a' = customCategories a
  /\ scanState a' = clearStaging (scanState a)
  /\ isScanDetailsVisible (scanState a') = false
  /\ scanResult (scanState a') = None
  /\ editableResult (scanState a') = None
  /\ imageDataUrl (scanState a') = None
  /\ (forall b, scanState (handleConfirmScan id date b) = clearStaging (scanState b)).
Proof.
  intros He Hi a'. subst a'.
  assert (A : forall b, scanState (handleConfirmScan id date b)
                        = clearStaging (scanState b)).
  { intros b. unfold handleConfirmScan.
    destruct (editableResult (scanState b)) as [ed|]; [|reflexivity].
    destruct (0 <? _)%nat; reflexivity. }
  unfold handleConfirmScan. rewrite He, Hi. cbn. repeat split. exact A.
Qed.

(** C10 on a staged result whose only item was removed. *)
Lemma C10_confirm_witness :
  history (handleConfirmScan "id" "date"
             (mkApp initial
                    (mkScan false None false None
                            (Some (mkEditable zero "Groceries" [])) true
                            (Some "data:image/png;base64,AAAA"))
                    Categories.defaultCategories []))
  = [].
Proof.
  refine (proj1 (C10_confirm_without_items "id" "date"
                   (mkApp initial
                          (mkScan false None false None
                                  (Some (mkEditable zero "Groceries" [])) true
                                  (Some "data:image/png;base64,AAAA"))
                          Categories.defaultCategories [])
                   (mkEditable zero "Groceries" []) _ _)); reflexivity.
Defined.

End ScanClaims.

(** ** Further properties of the engine *)

Module EngineExtras.
Import JsNumber Engine EngineSpec EngineProofs.

Lemma record_eta (s : CalcState) :
  mkCalc (displayValue s) (previousValue s) (operator s) (waitingForOperand s)
         (calculationString s) = s.
Proof. now destruct s. Qed.

Lemma append_digit_not_error (a : string) (d : Digit) :
  String.eqb (a ++ digitString d) "Error" = false.
Proof.
  apply String.eqb_neq.
  destruct a as [|c1 [|c2 [|c3 [|c4 [|c5 [|c6 a]]]]]]; destruct d; cbn;
    intros H; discriminate.
Qed.

Lemma length_append (a b : string) :
  String.length (a ++ b) = (String.length a + String.length b)%nat.
Proof. induction a as [|c a IH]; cbn; [reflexivity|now rewrite IH]. Qed.

Lemma digit_length (d : Digit) : String.length (digitString d) = 1%nat.
Proof. now destruct d. Qed.

Lemma dropLast_append_digit (a : string) (d : Digit) :
  JsString.dropLast (a ++ digitString d) = a.
Proof.
  induction a as [|c a IH].
  - now destruct d.
  - cbn [append JsString.dropLast]. rewrite IH.
    destruct (a ++ digitString d) eqn:E; [|reflexivity].
    destruct a, d; discriminate.
Qed.

Section WithMath.
Context {M : MathLib}.

Lemma press_paired (k : Key) (s : CalcState) : paired s -> paired (fst (press k s)).
Proof.
  intros P.
  assert (Keep : forall s', previousValue s' = previousValue s ->
                            operator s' = operator s -> paired s').
  { intros s' H1 H2. unfold paired. now rewrite H1, H2. }
  assert (Cleared : forall s', previousValue s' = None -> operator s' = None ->
                               paired s').
  { intros s' H1 H2. left. now split. }
  destruct k; cbn [press fst].
  - unfold inputDigit.
    destruct (isError s), (waitingForOperand s),
      (15 <=? String.length (displayValue s))%nat; now apply Keep.
  - unfold inputDecimal.
    destruct (isError s), (waitingForOperand s),
      (negb (JsString.includesChar "." (displayValue s))); now apply Keep.
  - unfold inputPercent. destruct (isError s); now apply Keep.
  - unfold toggleSign. destruct (isError s); [now apply Keep|].
    destruct (negb _); now apply Keep.
  - unfold backspace. destruct (isError s || waitingForOperand s); [now apply Keep|].
    destruct (1 <? _)%nat; now apply Keep.
  - unfold performOperation. destruct (isError s); [exact P|].
    destruct P as [[Hp Ho]|(a & o' & Hp & Ho)]; rewrite Hp.
    + right. eexists. exists o. split; reflexivity.
    + rewrite Ho.
      destruct (negb (String.eqb (binOpSign o') "")).
      * destruct (negb (isFinite _)); [now apply Cleared|].
        right. eexists. exists o. split; reflexivity.
      * right. exists a, o. split; [exact Hp|reflexivity].
  - unfold performUnaryOperation. destruct (isError s); [exact P|].
    destruct (unaryResult _ _) as [r|]; [|exact P].
    destruct (negb (isFinite r)); [now apply Cleared|now apply Keep].
  - unfold inputConstant. destruct (isError s); [now apply Cleared|now apply Keep].
  - unfold handleEquals. destruct (previousValue s) as [prev|] eqn:Hp; [|exact P].
    destruct (operatorSet s); [|exact P].
    destruct (negb (isFinite _)); now apply Cleared.
  - unfold clearButton, clearEntry.
    destruct (_ && _); [now apply Cleared|].
    destruct (isError s); [now apply Cleared|now apply Keep].
  - now apply Cleared.
Qed.

Lemma reachable_paired (s : CalcState) : reachable s -> paired s.
Proof.
  induction 1 as [|k s R IH|id date a R IH|a R IH].
  - left. now split.
  - now apply press_paired.
  - unfold Scan.handleConfirmScan.
    destruct (Scan.editableResult (Scan.scanState a)) as [ed|]; [|exact IH].
    destruct (0 <? _)%nat; [|exact IH]. left. now split.
  - left. now split.
Qed.

(** In every state the component can reach, the stashed operand and the
    pending operator are set together, the pending operator is one of the
    five signs (the default branch of [calculate] is never taken), and the
    display is ["Error"] only in the state [handleCalculationError]
    leaves. *)
Theorem reachable_state_invariants (s : CalcState) :
  reachable s ->
  paired s /\ (isError s = true -> s = errorState).
Proof.
  intros R. split; [now apply reachable_paired | now apply reachable_error].
Qed.

(** *** Typing digits *)





(** Backspace undoes a digit: on a composed display other than ["0"] that
    is shorter than fifteen, a digit followed by backspace gives back the
    state. *)
Theorem backspace_undoes_digit (s : CalcState) (d : Digit) :
  isError s = false ->
  waitingForOperand s = false ->
  displayValue s <> "" ->
  displayValue s <> "0" ->
  (String.length (displayValue s) < 15)%nat ->
  backspace (inputDigit (digitString d) s) = s.
Proof.
  intros NE W N0 N1 L.
  assert (E1 : inputDigit (digitString d) s
               = setDisplayValue (displayValue s ++ digitString d) s).
  { unfold inputDigit. rewrite NE, W.
    destruct (Nat.leb_spec 15 (String.length (displayValue s))); [lia|].
    destruct (String.eqb_spec (displayValue s) "0"); [contradiction|reflexivity]. }
  rewrite E1. unfold backspace, isError. cbn [displayValue setDisplayValue waitingForOperand].
  rewrite append_digit_not_error, W. cbn [orb].
  rewrite length_append, digit_length.
  destruct (Nat.ltb_spec 1 (String.length (displayValue s) + 1)).
  - unfold setDisplayValue. cbn. rewrite dropLast_append_digit. apply record_eta.
  - destruct (displayValue s); [contradiction|cbn in *; lia].
Qed.

(** An operator key with nothing stashed stashes the display; with an
    operation pending and a finite result it resolves the pending operation
    first: the result becomes both the display and the stashed operand, the
    new operator is pending, and the trace shows the operand just entered
    (not the result) followed by the new operator. *)
Theorem operator_chains_left_to_right
  (s : CalcState) (a : number) (pending next : BinOp) :
  isError s = false ->
  previousValue s = Some a ->
  operator s = Some (binOpSign pending) ->
  isFinite (calculate a (parseFloat (displayValue s)) (binOpSign pending)) = true ->
  let b := parseFloat (displayValue s) in
  let result := calculate a b (binOpSign pending) in
  press (KOperator next) s
  = (mkCalc (toString result) (Some result) (Some (binOpSign next)) true
            (toString b ++ " " ++ binOpSign next), [])
  /\ (forall s', isError s' = false -> previousValue s' = None ->
        press (KOperator next) s'
        = (mkCalc (displayValue s') (Some (parseFloat (displayValue s')))
                  (Some (binOpSign next)) true
                  (toString (parseFloat (displayValue s')) ++ " " ++ binOpSign next),
           [])).
Proof.
  intros NE Hp Ho Hf b result. split.
  - cbn [press]. unfold performOperation. rewrite NE, Hp, Ho.
    rewrite EngineClaims.binOpSign_nonempty. cbn [negb].
    fold b. fold result. unfold result at 1. unfold b at 1. rewrite Hf. reflexivity.
  - intros s' NE' Hp'. cbn [press]. unfold performOperation. rewrite NE', Hp'.
    reflexivity.
Qed.

(** Digit and decimal-point keys never touch the stashed operand or the
    pending operator and never write to the ledger. *)
Theorem entry_keys_keep_pending_operation (ks : list Key) (s : CalcState) :
  forallb isEntryKey ks = true ->
  previousValue (fst (pressAll ks s)) = previousValue s
  /\ operator (fst (pressAll ks s)) = operator s
  /\ snd (pressAll ks s) = [].
Proof. apply entry_keeps_operands. Qed.

End WithMath.

Lemma reachable_state_invariants_witness :
  paired errorState /\ (isError errorState = true -> errorState = errorState).
Proof.
  exact (@reachable_state_invariants sampleMath errorState
           EngineClaims.errorState_reachable).
Defined.



Lemma backspace_undoes_digit_witness :
  backspace (inputDigit (digitString D7) (mkCalc "12" None None false ""))
  = mkCalc "12" None None false "".
Proof.
  refine (backspace_undoes_digit (mkCalc "12" None None false "") D7 _ _ _ _ _).
  - reflexivity.
  - reflexivity.
  - discriminate.
  - discriminate.
  - cbn. lia.
Defined.

Lemma operator_chains_witness :
  @press sampleMath (KOperator Times)
         (mkCalc "3" (Some five) (Some op_add) false ("5 " ++ op_add))
  = (mkCalc (toString (@calculate sampleMath five (parseFloat "3") op_add))
            (Some (@calculate sampleMath five (parseFloat "3") op_add))
            (Some op_mul) true
            (toString (parseFloat "3") ++ " " ++ op_mul), []).
Proof.
  refine (proj1 (@operator_chains_left_to_right sampleMath
                   (mkCalc "3" (Some five) (Some op_add) false ("5 " ++ op_add))
                   five Plus Times _ _ _ _)).
  - reflexivity.
  - reflexivity.
  - reflexivity.
  - vm_compute. reflexivity.
Defined.

Lemma entry_keys_witness :
  previousValue (fst (@pressAll sampleMath [KDigit D1; KDecimal; KDigit D5]
                        (mkCalc "5" (Some five) (Some op_add) true ("5 " ++ op_add))))
  = Some five.
Proof.
  refine (proj1 (@entry_keys_keep_pending_operation sampleMath
                   [KDigit D1; KDecimal; KDigit D5]
                   (mkCalc "5" (Some five) (Some op_add) true ("5 " ++ op_add)) _)).
  reflexivity.
Defined.

End EngineExtras.

(** ** Further properties of the sanitizer and of the staging panel *)

Module ScanExtras.
Import JsNumber JsValue Sanitizer SanitizerSpec SanitizerProofs Engine Scan.

(** [sanitize_returns] on the receipt of the specification. *)
Lemma sanitize_returns_witness :
  Forall2 imageOf (keptElements (rawItems milkReceipt))
                  (items (mkCalculationResult (parseFloat "2.50") "Groceries"
                            [mkItem "Milk" (parseFloat "2.50")])).
Proof.
  refine (proj1 (sanitize_returns milkReceipt
                   (mkCalculationResult (parseFloat "2.50") "Groceries"
                      [mkItem "Milk" (parseFloat "2.50")]) _)).
  vm_compute. reflexivity.
Defined.

(** [sanitize_total] on the receipt of the specification. *)
Lemma sanitize_total_witness :
  exists r, validateAndSanitizeScanResult milkReceipt = Ok r.
Proof.
  refine (sanitize_total milkReceipt _ _ _).
  - reflexivity.
  - reflexivity.
  - split.
    + intros item a H. vm_compute in H.
      destruct H as [H|[]]. injection H as <- <-. vm_compute. discriminate.
    + vm_compute. discriminate.
Defined.

(** The amount read from the text of an editable item is always a finite
    number: text that does not parse, or that overflows, counts as 0. *)
Theorem parseSanitizedAmount_is_finite (value : string) :
  isFinite (parseSanitizedAmount value) = true
  /\ (isFinite (parseFloat (cleanAmount value)) = false ->
      parseSanitizedAmount value = zero).
Proof.
  unfold parseSanitizedAmount.
  destruct (parseFloat (cleanAmount value)); cbn; split; intros; try reflexivity;
    discriminate.
Qed.





(** Whatever the outcome of a scan, [processImage] leaves the ledger, the
    engine and the category set untouched and lowers the loading and
    scanner flags; and when it reports no error, the payload was sanitized
    to a result with at least one item and a total that is not at most 0,
    which is staged together with its editable mirror and the captured
    image. *)
Theorem processImage_outcome (read : result string) (service : result JsValue) (a : App) :
  let a' := processImage read service a in
  history a' = history a
  /\ calc a' = calc a
  /\ customCategories a' = customCategories a
  /\ isLoading (scanState a') = false
  /\ isScannerOpen (scanState a') = false
  /\ (error (scanState a') = None ->
      exists dataUrl rawResult r,
        read = Ok dataUrl /\ service = Ok rawResult
        /\ validateAndSanitizeScanResult rawResult = Ok r
        /\ items r <> [] /\ leb (total r) zero = false
        /\ scanResult (scanState a') = Some r
        /\ editableResult (scanState a') = Some (toEditable r)
        /\ isScanDetailsVisible (scanState a') = true
        /\ imageDataUrl (scanState a') = Some dataUrl).
Proof.
  intros a'. subst a'. unfold processImage.
  destruct (tryScan read service _) as [s1 thrown] eqn:T.
  cbn [history calc customCategories scanState].
  repeat (split; [reflexivity|]).
  unfold tryScan in T.
  destruct read as [dataUrl|e1]; [|injection T as <- <-; cbn; discriminate].
  destruct service as [rawResult|e2]; [|injection T as <- <-; cbn; discriminate].
  destruct (validateAndSanitizeScanResult rawResult) as [r|e3] eqn:V;
    [|injection T as <- <-; cbn; discriminate].
  destruct (rejected r) eqn:R; [injection T as <- <-; cbn; discriminate|].
  injection T as <- <-. cbn. intros _.
  exists dataUrl, rawResult, r.
  unfold rejected in R. apply orb_false_iff in R as [R1 R2].
  repeat split; try reflexivity; try assumption.
  intros E. rewrite E in R1. discriminate.
Qed.

End ScanExtras.

(** ** The ledger, the expense form and the category set of the application *)

Module AppExtras.
Import JsNumber Engine Scan Expense Categories CategoryProofs LedgerSpec.









(** A submitted expense is either refused, with an alert and nothing
    changed, or recorded as exactly one entry of type expense at the head
    of the ledger, whose total is a number that is not at most 0 and whose
    category is the trimmed, non-empty category of the form; the form is
    then closed and emptied. *)
Theorem handleAddExpense_outcome (id date : string) (f : ExpenseForm) (a : App) :
  match handleAddExpense id date f a with
  | (f', a', Some alert) =>
      f' = f /\ a' = a
      /\ (alert = invalidAmountAlert \/ alert = missingCategoryAlert)
  | (f', a', None) =>
      f' = closedForm
      /\ calc a' = calc a /\ scanState a' = scanState a
      /\ exists entry,
           history a' = firstn 50 (mkHistoryItem id date entry :: history a)
           /\ d_type entry = expense
           /\ d_total entry = parseFloat (expenseAmount f)
           /\ isNaN (d_total entry) = false
           /\ leb (d_total entry) zero = false
           /\ d_category entry = Some (JsString.trim (expenseCategory f))
           /\ JsString.trim (expenseCategory f) <> ""
           /\ d_description entry <> Some ""
  end.
Proof.
  unfold handleAddExpense.
  destruct (String.eqb (expenseAmount f) "" || isNaN (parseFloat (expenseAmount f))
            || leb (parseFloat (expenseAmount f)) zero) eqn:G.
  { repeat split. now left. }
  destruct (String.eqb_spec (JsString.trim (expenseCategory f)) "") as [E|E].
  { repeat split. now right. }
  apply orb_false_iff in G as [G G3]. apply orb_false_iff in G as [G1 G2].
  split; [reflexivity|]. split; [reflexivity|]. split; [reflexivity|].
  eexists. split; [reflexivity|]. cbn.
  repeat split; try assumption.
  destruct (String.eqb_spec (JsString.trim (expenseDescription f)) "");
    [discriminate|congruence].
Qed.

Lemma rename_cascade_item (oldName newName : string) (item : HistoryItem) :
  newName <> oldName ->
  d_category (h_entry (renameInHistory oldName newName item)) <> Some oldName
  /\ h_id (renameInHistory oldName newName item) = h_id item
  /\ d_total (h_entry (renameInHistory oldName newName item)) = d_total (h_entry item)
  /\ (d_category (h_entry item) <> Some oldName ->
      renameInHistory oldName newName item = item).
Proof.
  intros N. unfold renameInHistory.
  destruct (d_category (h_entry item)) as [c|] eqn:C.
  - destruct (String.eqb_spec c oldName) as [->|Nc]; cbn.
    + repeat split; congruence.
    + rewrite C. repeat split; congruence.
  - rewrite C. repeat split; congruence.
Qed.

(** A rename that is carried out cascades to the ledger: afterwards no
    entry carries the old category name, the entries that carried it carry
    the new one, and every other entry, as well as the ids, the totals and
    the number of entries, is unchanged. *)
Theorem rename_cascades_to_history
  (oldName newCategoryName : string) (cats : list string) (history : list HistoryItem) :
  inserts (Rename oldName newCategoryName) cats = true ->
  let history' := snd (handleRenameCategory oldName newCategoryName cats history) in
  Forall (fun item => d_category (h_entry item) <> Some oldName) history'
  /\ map h_id history' = map h_id history
  /\ map (fun item => d_total (h_entry item)) history'
     = map (fun item => d_total (h_entry item)) history
  /\ Forall2 (fun before after =>
                (d_category (h_entry before) = Some oldName ->
                 d_category (h_entry after)
                 = Some (JsString.trim newCategoryName))
                /\ (d_category (h_entry before) <> Some oldName -> after = before))
             history history'.
Proof.
  cbn [inserts]. intros H. apply andb_prop in H as [H1 H2].
  apply negb_true_iff in H1, H2.
  unfold handleRenameCategory. rewrite H1, H2. cbn [snd].
  apply orb_false_iff in H1 as [_ H1]. apply String.eqb_neq in H1.
  set (newName := JsString.trim newCategoryName) in *.
  induction history as [|item rest IH]; cbn [map].
  - repeat split; constructor.
  - destruct IH as (I1 & I2 & I3 & I4).
    destruct (rename_cascade_item oldName newName item H1) as (R1 & R2 & R3 & R4).
    repeat split.
    + now constructor.
    + now rewrite R2, I2.
    + now rewrite R3, I3.
    + constructor; [|exact I4]. split; [|exact R4].
      intros C. unfold renameInHistory. rewrite C, String.eqb_refl. reflexivity.
Qed.

Lemma rename_cascade_witness :
  Forall (fun item => d_category (h_entry item) <> Some "Home")
         (snd (handleRenameCategory "Home" "House" defaultCategories
                 [mkHistoryItem "t1" "d1"
                    (mkDraft expense zero None None (Some "Home") None)])).
Proof.
  refine (proj1 (rename_cascades_to_history "Home" "House" defaultCategories
                   [mkHistoryItem "t1" "d1"
                      (mkDraft expense zero None None (Some "Home") None)] _)).
  vm_compute. reflexivity.
Defined.

(** An add that is carried out inserts exactly the trimmed name: the new
    set has the old entries and that name, and nothing else. *)
Theorem add_inserts_the_trimmed_name (input : string) (cats : list string) :
  inserts (Add input) cats = true ->
  Permutation (handleAddCategory input cats) (JsString.trim input :: cats)
  /\ ~ In (JsString.trim input) cats
  /\ JsString.trim input <> "".
Proof.
  cbn [inserts]. intros H. apply andb_prop in H as [H1 H2].
  apply negb_true_iff in H1, H2.
  unfold handleAddCategory. rewrite H1, H2. split; [|split].
  - rewrite sort_perm. symmetry. apply Permutation_cons_append.
  - intros Hin. apply existsIgnoringCase_false in H2. apply H2. now apply in_map.
  - now apply String.eqb_neq.
Qed.

Lemma add_inserts_witness :
  Permutation (handleAddCategory " Travel " defaultCategories)
              (JsString.trim " Travel " :: defaultCategories).
Proof.
  refine (proj1 (add_inserts_the_trimmed_name " Travel " defaultCategories _)).
  vm_compute. reflexivity.
Defined.

End AppExtras.

(** ** The export of the history *)

Module CsvProofs.
Import Csv CsvSpec.

Lemma append_assoc (a b c : string) : (a ++ b) ++ c = a ++ (b ++ c).
Proof. induction a as [|x a IH]; cbn; [reflexivity|now rewrite IH]. Qed.

Lemma append_empty (a : string) : a ++ "" = a.
Proof. induction a as [|x a IH]; cbn; [reflexivity|now rewrite IH]. Qed.

Lemma closing_states_agree (k field : string) (row : list string)
  (rows : list (list string)) :
  afterField k ->
  readCSV k FieldStart field row rows = readCSV k Bare field row rows
  /\ readCSV k QuoteSeen field row rows = readCSV k Bare field row rows.
Proof.
  intros [-> | [[rest ->] | [rest ->]]]; split; reflexivity.
Qed.

Lemma needsQuoting_cons (c : ascii) (f : string) :
  needsQuoting (String c f) = false ->
  Ascii.eqb c comma = false /\ Ascii.eqb c quote = false
  /\ Ascii.eqb c newline = false /\ needsQuoting f = false.
Proof.
  unfold needsQuoting. cbn [JsString.includesChar].
  rewrite (Ascii.eqb_sym comma c), (Ascii.eqb_sym quote c), (Ascii.eqb_sym newline c).
  destruct (Ascii.eqb c comma), (Ascii.eqb c quote), (Ascii.eqb c newline); cbn;
    intros H; rewrite ?orb_true_r in H; try discriminate;
    repeat split; try reflexivity.
  exact H.
Qed.

Lemma bare_run (f : string) :
  forall pre k row rows,
    needsQuoting f = false ->
    readCSV (f ++ k) Bare pre row rows = readCSV k Bare (pre ++ f) row rows.
Proof.
  induction f as [|c f IH]; intros pre k row rows H.
  - cbn [append]. now rewrite append_empty.
  - apply needsQuoting_cons in H as (H1 & H2 & H3 & H4).
    cbn [append readCSV]. rewrite H1, H2, H3.
    rewrite IH by exact H4. now rewrite append_assoc.
Qed.

Lemma quoted_run (f : string) :
  forall pre k row rows,
    readCSV (doubleQuotes f ++ String quote k) Quoted pre row rows
    = readCSV k QuoteSeen (pre ++ f) row rows.
Proof.
  induction f as [|c f IH]; intros pre k row rows.
  - cbn [doubleQuotes append readCSV]. rewrite Ascii.eqb_refl. now rewrite append_empty.
  - cbn [doubleQuotes]. destruct (Ascii.eqb c quote) eqn:Q.
    + apply Ascii.eqb_eq in Q. subst c.
      cbn [append readCSV]. rewrite Ascii.eqb_refl.
      change (Ascii.eqb quote comma) with false.
      change (Ascii.eqb quote newline) with false. cbn iota.
      rewrite IH. now rewrite append_assoc.
    + cbn [append readCSV]. rewrite Q. rewrite IH. now rewrite append_assoc.
Qed.

(** one escaped field, read back *)
Lemma read_field (f k : string) (row : list string) (rows : list (list string)) :
  afterField k ->
  readCSV (escapeCSV f ++ k) FieldStart "" row rows = readCSV k Bare f row rows.
Proof.
  intros K. unfold escapeCSV. destruct (needsQuoting f) eqn:N.
  - cbn [append readCSV].
    change (Ascii.eqb quote comma) with false.
    change (Ascii.eqb quote newline) with false. rewrite Ascii.eqb_refl. cbn iota.
    rewrite append_assoc. cbn [append]. rewrite quoted_run. cbn [append].
    now apply closing_states_agree.
  - destruct f as [|c f].
    + cbn [append]. now apply closing_states_agree.
    + pose proof (needsQuoting_cons c f N) as (H1 & H2 & H3 & H4).
      cbn [append readCSV]. rewrite H1, H2, H3. cbn [append].
      now rewrite bare_run.
Qed.

(** one line of escaped fields, read back *)
Lemma read_line (fields : list string) :
  forall k row rows,
    fields <> [] -> afterLine k ->
    readCSV (csvLine fields ++ k) FieldStart "" row rows
    = match k with
      | EmptyString => (rows ++ [row ++ fields])%list
      | String _ rest => readCSV rest FieldStart "" [] (rows ++ [row ++ fields])%list
      end.
Proof.
  induction fields as [|f fields IH]; intros k row rows N K; [contradiction|].
  destruct fields as [|g fields].
  - unfold csvLine. cbn [map JsString.join].
    rewrite read_field.
    + destruct K as [-> | [rest ->]]; reflexivity.
    + destruct K as [-> | [rest ->]]; [now left | right; right; eauto].
  - unfold csvLine in *. cbn [map JsString.join] in *.
    rewrite !append_assoc. rewrite read_field by (right; left; eexists; reflexivity).
    cbn [append readCSV]. rewrite Ascii.eqb_refl.
    rewrite IH by (discriminate || exact K).
    unfold endField. destruct k; rewrite <- app_assoc; reflexivity.
Qed.

Lemma read_text (table : list (list string)) :
  forall rows,
    table <> [] -> Forall (fun fields => fields <> []) table ->
    readCSV (csvText table) FieldStart "" [] rows = (rows ++ table)%list.
Proof.
  induction table as [|fields table IH]; intros rows N F; [contradiction|].
  inversion F as [|? ? Hf Ht]; subst.
  destruct table as [|fields' table].
  - unfold csvText. cbn [map JsString.join].
    rewrite <- (append_empty (csvLine fields)).
    rewrite read_line; [reflexivity | exact Hf | now left].
  - change (csvText (fields :: fields' :: table))
      with (csvLine fields ++ String newline (csvText (fields' :: table))).
    rewrite read_line; [|exact Hf | right; eauto].
    cbn [app]. rewrite IH by (discriminate || exact Ht).
    now rewrite <- app_assoc.
Qed.

(** What [escapeCSV] writes can be read back: a table of values with at
    least one row and at least one value per row, written with the fields
    of each row escaped and joined by commas and the rows joined by line
    feeds, is read by a reader of comma-separated text as the same table,
    whatever commas, quotes and line feeds the values hold. *)
Theorem csv_round_trip (table : list (list string)) :
  table <> [] ->
  Forall (fun fields => fields <> []) table ->
  parseCSV (csvText table) = table.
Proof. intros N F. unfold parseCSV. now rewrite read_text. Qed.

Lemma csv_round_trip_witness :
  parseCSV (csvText [["a,b"; String quote "q"]; [""; String newline "x"]])
  = [["a,b"; String quote "q"]; [""; String newline "x"]].
Proof.
  refine (csv_round_trip [["a,b"; String quote "q"]; [""; String newline "x"]] _ _).
  - discriminate.
  - repeat constructor; discriminate.
Defined.

Lemma header_line : JsString.join (String comma "") headers = csvLine headers.
Proof. reflexivity. Qed.

(** The export is skipped on an empty history; otherwise the exported text
    reads back as the header row followed by one row of seven values per
    entry, from the oldest entry to the newest: id, date, type, total,
    description, calculation and category, the missing ones empty. *)
Theorem export_reads_back (history : list HistoryItem) :
  match exportToCSV history with
  | None => history = []
  | Some text =>
      history <> []
      /\ parseCSV text = headers :: map fieldsOf (rev history)
  end.
Proof.
  unfold exportToCSV. destruct history as [|item rest]; [reflexivity|].
  cbn [List.length Nat.eqb]. split; [discriminate|].
  rewrite header_line.
  rewrite <- (map_map fieldsOf csvLine).
  change (csvLine headers :: map csvLine (map fieldsOf (rev (item :: rest))))
    with (map csvLine (headers :: map fieldsOf (rev (item :: rest)))).
  fold (csvText (headers :: map fieldsOf (rev (item :: rest)))).
  unfold parseCSV. rewrite read_text; [reflexivity|discriminate|].
  constructor; [discriminate|].
  apply Forall_forall. intros fields H. apply in_map_iff in H as (it & <- & _).
  discriminate.
Qed.

End CsvProofs.
